(** * FlowGuard benchmark scripts: dataset synthesizer and evaluator

    A shallow embedding of [scripts/create_benchmark_dataset.py] and
    [scripts/evaluate_vision_accuracy.py].

    Conventions.
    - A Python [bool] is a [bool], a Python [int] a [Z] (a loop index or a
      count that is never negative a [nat]), a Python [str] a [string], a
      Python list a [list], a dict with fixed keys a record.
    - A Python [float] that the evaluator obtains by dividing two counts is
      kept as the exact rational in lowest terms ([Q] after [Qred]); the
      constants 0.0, 0.5 and 1.0 that the statements below compare against
      are the rationals 0, 1/2 and 1.
    - A call that may raise returns a [result].
    - The functions of [sklearn.metrics] are not part of the scripts; module
      [Sklearn] gives the behaviour of the five that the evaluator calls, on
      sequences of booleans and with the arguments the evaluator passes.
    - The clock and the external generator are parameters of the
      synthesizer; the functions that read the clock thread the number of
      readings made so far.
    - [print] calls are not modelled. *)

From Stdlib Require Import List String Ascii Bool Arith ZArith QArith Lia.
From Stdlib Require Import Permutation.
From Stdlib Require Import DecimalString DecimalNat.
Import ListNotations.

Close Scope Q_scope.
Local Open Scope string_scope.
Local Open Scope list_scope.

(* ================================================================== *)
(** ** Python values shared by both scripts *)

(** Exceptions that escape a function. *)
Inductive exn : Type :=
| ValueError
| KeyError
| IndexError.

Inductive result (A : Type) : Type :=
| Ok (a : A)
| Raise (e : exn).
Arguments Ok {A} a.
Arguments Raise {A} e.

Definition bind {A B : Type} (m : result A) (k : A -> result B) : result B :=
  match m with
  | Ok a => k a
  | Raise e => Raise e
  end.

Notation "x <- m ;; k" := (bind m (fun x => k))
  (at level 61, m at next level, right associativity).
Notation "' p <- m ;; k" := (bind m (fun x => let 'p := x in k))
  (at level 61, p pattern, m at next level, right associativity).

(** [l[i]] for a list and [d[k]] for a dict given by its items. *)
Definition getitem {A : Type} (l : list A) (i : nat) : result A :=
  match nth_error l i with
  | Some x => Ok x
  | None => Raise IndexError
  end.

Definition dict_get {V : Type} (d : list (string * V)) (k : string) : result V :=
  match find (fun kv => String.eqb (fst kv) k) d with
  | Some kv => Ok (snd kv)
  | None => Raise KeyError
  end.

(** [for a in l: s = body(a, s)], stopping at the first exception. *)
Fixpoint for_each {S A : Type} (body : A -> S -> result S) (l : list A) (s : S)
  : result S :=
  match l with
  | [] => Ok s
  | a :: l' => s' <- body a s ;; for_each body l' s'
  end.

(** [range(count)] *)
Definition range (count : nat) : list nat := seq 0 count.

(** [str(n)] and [f"{n:03d}"] for a natural number. *)
Definition str_of_nat (n : nat) : string :=
  NilEmpty.string_of_uint (Nat.to_uint n).

Fixpoint zeros (k : nat) : string :=
  match k with
  | O => EmptyString
  | S k' => String "0" (zeros k')
  end.

Definition format_03d (n : nat) : string :=
  let digits := str_of_nat n in
  zeros (3 - String.length digits) ++ digits.

(** What [json.loads] produces.  A number keeps its lexeme; an object is the
    list of the items of the resulting [dict] (keys pairwise distinct). *)
#[local] Unset Elimination Schemes.
Inductive json : Type :=
| JNull
| JBool (b : bool)
| JNum (lexeme : string)
| JStr (s : string)
| JArr (items : list json)
| JObj (items : list (string * json)).
#[local] Set Elimination Schemes.

(** [data[key]]: [None] stands for the [KeyError] of a missing key and for
    the [TypeError] of subscripting something that is not a [dict]. *)
Definition subscript (data : json) (key : string) : option json :=
  match data with
  | JObj items =>
      match find (fun kv => String.eqb (fst kv) key) items with
      | Some kv => Some (snd kv)
      | None => None
      end
  | _ => None
  end.

(* ================================================================== *)
(** ** The documents (spec section 3) *)

Record GroundTruth : Type := {
  verdict : bool;
  expected_issues : json
}.

Record Metadata : Type := {
  category : string;
  difficulty : json;
  created_at : string
}.

Record Example : Type := {
  id : string;
  screenshot_path : string;
  assertion : json;
  ground_truth : GroundTruth;
  metadata : Metadata
}.

Record Prediction : Type := {
  example_id : string;
  predicted_verdict : bool
}.

(** The dataset document and the results document. *)
Module Dataset.

Record t : Type := {
  version : string;
  created_at : string;
  total_examples : Z;
  examples : list Example
}.

End Dataset.

Module Results.

Record t : Type := {
  predictions : list Prediction
}.

End Results.

(* ================================================================== *)
(** ** [sklearn.metrics], as called by the evaluator, on boolean labels *)

Module Sklearn.

(** Number of positions [i] with [y_true[i] = t] and [y_pred[i] = p]. *)
Definition cell (t p : bool) (y_true y_pred : list bool) : Z :=
  Z.of_nat
    (List.length
       (filter (fun tp => Bool.eqb (fst tp) t && Bool.eqb (snd tp) p)
               (combine y_true y_pred))).

(** Float division of two counts. *)
Definition fdiv (n d : Z) : Q := Qred (inject_Z n / inject_Z d).

(** [_prf_divide(..., zero_division=0)]: the quotient, and 0 where the
    denominator is 0. *)
Definition prf_divide (n d : Z) : Q :=
  if (d =? 0)%Z then 0%Q else fdiv n d.

(** [accuracy_score]: the mean of [y_true == y_pred]. *)
Definition accuracy_score (y_true y_pred : list bool) : Q :=
  fdiv (Z.of_nat
          (List.length
             (filter (fun tp => Bool.eqb (fst tp) (snd tp))
                     (combine y_true y_pred))))
       (Z.of_nat (List.length y_true)).

(** The binary scores take [pos_label = 1], that is [True]. *)
Definition tp_sum (y_true y_pred : list bool) : Z := cell true true y_true y_pred.
Definition pred_sum (y_true y_pred : list bool) : Z :=
  (cell true true y_true y_pred + cell false true y_true y_pred)%Z.
Definition true_sum (y_true y_pred : list bool) : Z :=
  (cell true true y_true y_pred + cell true false y_true y_pred)%Z.

Definition precision_score (y_true y_pred : list bool) : Q :=
  prf_divide (tp_sum y_true y_pred) (pred_sum y_true y_pred).

Definition recall_score (y_true y_pred : list bool) : Q :=
  prf_divide (tp_sum y_true y_pred) (true_sum y_true y_pred).

(** [f1_score]: [2 tp / (true_sum + pred_sum)]. *)
Definition f1_score (y_true y_pred : list bool) : Q :=
  prf_divide (2 * tp_sum y_true y_pred)
             (true_sum y_true y_pred + pred_sum y_true y_pred).

(** [unique_labels]: the sorted distinct labels of both sequences
    ([False < True]). *)
Definition unique_labels (y_true y_pred : list bool) : list bool :=
  (if existsb negb (y_true ++ y_pred) then [false] else [])
    ++ (if existsb (fun b => b) (y_true ++ y_pred) then [true] else []).

(** [confusion_matrix(y_true, y_pred)] without [labels=]: one row and one
    column per label that occurs, rows indexed by the true label. *)
Definition confusion_matrix (y_true y_pred : list bool) : list (list Z) :=
  let labels := unique_labels y_true y_pred in
  map (fun t => map (fun p => cell t p y_true y_pred) labels) labels.

(** [cm.ravel()]: the rows one after another. *)
Definition ravel (cm : list (list Z)) : list Z := List.concat cm.

End Sklearn.

(* ================================================================== *)
(** ** [evaluate_vision_accuracy.py] *)

Module Evaluate.

Import Sklearn.

Record Report : Type := {
  accuracy : Q;
  precision : Q;
  recall : Q;
  f1_score : Q;
  true_positives : Z;
  false_positives : Z;
  true_negatives : Z;
  false_negatives : Z;
  total_examples : Z
}.

(** [next((r for r in predictions if r['example_id'] == example_id), None)] *)
Definition find_result (predictions : list Prediction) (example_id' : string)
  : option Prediction :=
  find (fun r => String.eqb (example_id r) example_id') predictions.

(** The [for example in dataset['examples']] loop, threading the two
    accumulators.  A found [result] is a non-empty dict, hence truthy. *)
Fixpoint collect (examples : list Example) (predictions : list Prediction)
    (y_true y_pred : list bool) : list bool * list bool :=
  match examples with
  | [] => (y_true, y_pred)
  | example :: rest =>
      match find_result predictions (id example) with
      | None => collect rest predictions y_true y_pred
      | Some r =>
          collect rest predictions
                  (y_true ++ [verdict (ground_truth example)])
                  (y_pred ++ [predicted_verdict r])
      end
  end.

Definition empty_report : Report :=
  {| accuracy := 0; precision := 0; recall := 0; f1_score := 0;
     true_positives := 0; false_positives := 0;
     true_negatives := 0; false_negatives := 0;
     total_examples := 0 |}.

(** The part of [evaluate_results] after the loop. *)
Definition score (y_true y_pred : list bool) : result Report :=
  if Nat.eqb (List.length y_true) 0 then Ok empty_report
  else
    let accuracy := accuracy_score y_true y_pred in
    let precision := precision_score y_true y_pred in
    let recall := recall_score y_true y_pred in
    let f1 := Sklearn.f1_score y_true y_pred in
    let cm := confusion_matrix y_true y_pred in
    match ravel cm with
    | [tn; fp; fn; tp] =>
        Ok {| accuracy := accuracy; precision := precision;
              recall := recall; f1_score := f1;
              true_positives := tp; false_positives := fp;
              true_negatives := tn; false_negatives := fn;
              total_examples := Z.of_nat (List.length y_true) |}
    | _ => Raise ValueError
    end.

Definition evaluate_results (dataset : Dataset.t) (results : Results.t)
  : result Report :=
  let '(y_true, y_pred) :=
    collect (Dataset.examples dataset) (Results.predictions results) [] [] in
  score y_true y_pred.

End Evaluate.

(* ================================================================== *)
(** ** [create_benchmark_dataset.py] *)

Module Synthesize.

Definition categories : list string :=
  ["accessibility"; "layout"; "responsiveness"; "ux-dark-patterns"; "security"].

Record MockEntry : Type := {
  mock_assertion : string;
  mock_issues : list string;
  mock_difficulty : string
}.

Definition mock_data : list (string * MockEntry) :=
  [ ("accessibility",
     {| mock_assertion := "The checkout button has sufficient color contrast (WCAG AA)";
        mock_issues := ["Button contrast ratio is 2.1:1, below WCAG AA requirement of 4.5:1"];
        mock_difficulty := "medium" |});
    ("layout",
     {| mock_assertion := "The navigation menu is visible without scrolling";
        mock_issues := ["Navigation menu is pushed below fold due to large hero image"];
        mock_difficulty := "easy" |});
    ("responsiveness",
     {| mock_assertion := "The form fields are fully visible on mobile (375px width)";
        mock_issues := ["Input labels are cut off by parent container overflow"];
        mock_difficulty := "medium" |});
    ("ux-dark-patterns",
     {| mock_assertion := "The unsubscribe button is as prominent as the subscribe button";
        mock_issues := ["Unsubscribe button is hidden in footer with 8px font size"];
        mock_difficulty := "hard" |});
    ("security",
     {| mock_assertion := "The password input field obscures entered characters";
        mock_issues := ["Password field shows plain text characters"];
        mock_difficulty := "easy" |}) ].

(** An element of the list that [generate_synthetic_examples] builds: an
    example dict, or the empty dict [{}] that [generate_mock_example] has
    as its second alternative. *)
Inductive entry : Type :=
| Filled (e : Example)
| EmptyDict.

Definition example_id_of (i : nat) : string := "example_" ++ format_03d (i + 1).

Definition screenshot_of (category : string) (i : nat) : string :=
  "benchmarks/screenshots/" ++ category ++ "_" ++ str_of_nat (i + 1) ++ ".png".

Section World.

(** The outside world of one run: [now k] is the ISO text of the [k]-th
    reading of [datetime.now()]; [external i category] is the parsed
    answer to the request made at position [i], and [None] when the
    request, [response.content[0].text] or [json.loads] raised. *)
Variable now : nat -> string.
Variable external : nat -> string -> option json.

(** The functions thread the number of clock readings made so far. *)
Definition clock : Type := nat.

Definition mock_body (i : nat) (st : list Example * clock)
  : result (list Example * clock) :=
  let '(examples, t) := st in
  category <- getitem categories (i mod List.length categories) ;;
  data <- dict_get mock_data category ;;
  Ok (examples ++
        [ {| id := example_id_of i;
             screenshot_path := screenshot_of category i;
             assertion := JStr (mock_assertion data);
             ground_truth :=
               {| verdict := false;
                  expected_issues := JArr (map JStr (mock_issues data)) |};
             metadata :=
               {| category := category;
                  difficulty := JStr (mock_difficulty data);
                  created_at := now t |} |} ],
      S t).

Definition generate_mock_examples (count : nat) (t : clock)
  : result (list Example * clock) :=
  for_each mock_body (range count) ([], t).

(** Neither [index] nor [category] is read. *)
Definition generate_mock_example (index : nat) (category : string) (t : clock)
  : result (entry * clock) :=
  '(mock, t') <- generate_mock_examples 1 t ;;
  Ok (match mock with
      | e :: _ => Filled e
      | [] => EmptyDict
      end, t').

(** The body of the [try]: [None] when anything in it raised.  The clock
    is read after the three subscripts. *)
Definition try_external (i : nat) (category : string) (t : clock)
  : option (Example * clock) :=
  match external i category with
  | None => None
  | Some data =>
      match subscript data "assertion",
            subscript data "expected_issues",
            subscript data "difficulty" with
      | Some a, Some issues, Some d =>
          Some ({| id := example_id_of i;
                   screenshot_path := screenshot_of category i;
                   assertion := a;
                   ground_truth :=
                     {| verdict := false; expected_issues := issues |};
                   metadata :=
                     {| category := category;
                        difficulty := d;
                        created_at := now t |} |},
                S t)
      | _, _, _ => None
      end
  end.

Definition synth_body (i : nat) (st : list entry * clock)
  : result (list entry * clock) :=
  let '(examples, t) := st in
  category <- getitem categories (i mod List.length categories) ;;
  match try_external i category t with
  | Some (e, t') => Ok (examples ++ [Filled e], t')
  | None =>
      '(e, t') <- generate_mock_example (i + 1) category t ;;
      Ok (examples ++ [e], t')
  end.

(** [api_key] is [os.getenv('ANTHROPIC_API_KEY')]; [not api_key] holds
    for [None] and for the empty string. *)
Definition generate_synthetic_examples (api_key : option string)
    (count : nat) (t : clock) : result (list entry * clock) :=
  match api_key with
  | None | Some EmptyString =>
      '(examples, t') <- generate_mock_examples count t ;;
      Ok (map Filled examples, t')
  | Some _ => for_each synth_body (range count) ([], t)
  end.

End World.

End Synthesize.

(* ================================================================== *)
(** ** The synthesizer's contract, in the words of the specification *)

Module SynthSpec.

Import Synthesize.

(** "indexed by example position (position mod 5)" *)
Definition category_at (i : nat) : string := nth (i mod 5) categories EmptyString.

(** The example carries the identifier, category and screenshot path of
    position [i] (0-based; the identifier counts from 1). *)
Definition at_position (i : nat) (e : Example) : Prop :=
  id e = example_id_of i
  /\ category (metadata e) = category_at i
  /\ screenshot_path e = screenshot_of (category_at i) i.

(** The content of the example is the hardcoded table entry of its
    category, verbatim. *)
Definition from_table (e : Example) : Prop :=
  exists data,
    dict_get mock_data (category (metadata e)) = Ok data
    /\ assertion e = JStr (mock_assertion data)
    /\ expected_issues (ground_truth e) = JArr (map JStr (mock_issues data))
    /\ difficulty (metadata e) = JStr (mock_difficulty data).

(** What the table strategy appends at position [i]. *)
Definition mock_at (i : nat) (e : Example) : Prop :=
  at_position i e /\ from_table e /\ verdict (ground_truth e) = false.

(** What the external strategy appends at position [i]: an example with
    verdict false that is either the one made from the answer, for
    position [i], or the fallback, which is the table example of
    position 0. *)
Definition synth_at (now : nat -> string)
    (external : nat -> string -> option json) (i : nat) (x : entry) : Prop :=
  exists e,
    x = Filled e
    /\ verdict (ground_truth e) = false
    /\ ((exists t, try_external now external i (category_at i) t <> None)
          /\ at_position i e
        \/ (exists t, try_external now external i (category_at i) t = None)
           /\ mock_at 0 e).

Definition category_count (c : string) (examples : list Example) : nat :=
  count_occ string_dec (map (fun e => category (metadata e)) examples) c.

(** "category frequencies differing by at most 1 across the 5 categories" *)
Definition balanced (examples : list Example) : Prop :=
  forall c1 c2, In c1 categories -> In c2 categories ->
    category_count c1 examples <= category_count c2 examples + 1.

(** Reading a decimal numeral back. *)
Definition read_nat (s : string) : option nat :=
  option_map Nat.of_uint (NilEmpty.uint_of_string s).

End SynthSpec.

(* ================================================================== *)
(** ** The join of section 4.2, in the words of the specification

    These definitions follow the text of the specification, not the script;
    the theorems below compare them with [Evaluate.collect]. *)

Module Spec.

(** "the first Prediction in results.predictions whose example_id equals
    the Example's id" *)
Fixpoint first_match (wanted : string) (predictions : list Prediction)
  : option Prediction :=
  match predictions with
  | [] => None
  | r :: rest =>
      if string_dec (example_id r) wanted then Some r
      else first_match wanted rest
  end.

(** Steps 1 and 2: the matched pairs (ground truth, prediction), in
    dataset order; an example without a prediction contributes nothing. *)
Fixpoint matched_pairs (examples : list Example) (predictions : list Prediction)
  : list (bool * bool) :=
  match examples with
  | [] => []
  | e :: rest =>
      match first_match (id e) predictions with
      | Some r =>
          (verdict (ground_truth e), predicted_verdict r)
            :: matched_pairs rest predictions
      | None => matched_pairs rest predictions
      end
  end.

Definition pair_eq_dec (x y : bool * bool) : {x = y} + {x <> y}.
Proof. decide equality; apply Bool.bool_dec. Defined.

(** Number of matched pairs with ground truth [actual] and prediction
    [predicted]. *)
Definition tally (actual predicted : bool) (pairs : list (bool * bool)) : Z :=
  Z.of_nat (count_occ pair_eq_dec pairs (actual, predicted)).

(** The predictions that are the first of their [example_id], in order;
    [seen] holds the identifiers met so far. *)
Fixpoint first_occurrences (seen : list string) (predictions : list Prediction)
  : list Prediction :=
  match predictions with
  | [] => []
  | r :: rest =>
      if in_dec string_dec (example_id r) seen
      then first_occurrences seen rest
      else r :: first_occurrences (example_id r :: seen) rest
  end.

(** Whether some example of the dataset has the identifier [i]. *)
Definition known_id (examples : list Example) (i : string) : bool :=
  existsb (fun e => String.eqb (id e) i) examples.

End Spec.

(* ================================================================== *)
(** ** Sample documents *)

Module Samples.

Definition example_with (i : string) (v : bool) : Example :=
  {| id := i; screenshot_path := EmptyString; assertion := JStr EmptyString;
     ground_truth := {| verdict := v; expected_issues := JArr [] |};
     metadata := {| category := "layout"; difficulty := JStr "easy";
                    created_at := EmptyString |} |}.

Definition pred (i : string) (v : bool) : Prediction :=
  {| example_id := i; predicted_verdict := v |}.

(** A dataset document as [save_dataset] lays it out, and a results
    document. *)
Definition dataset_of (examples : list Example) : Dataset.t :=
  {| Dataset.version := "1.0";
     Dataset.created_at := "2025-01-18T10:00:00";
     Dataset.total_examples := Z.of_nat (List.length examples);
     Dataset.examples := examples |}.

Definition results_of (predictions : list Prediction) : Results.t :=
  {| Results.predictions := predictions |}.

(** A well-formed answer of the external generator. *)
Definition answer : json :=
  JObj [("assertion", JStr "Every image has alternative text");
        ("expected_issues", JArr [JStr "The logo has no alt attribute"]);
        ("difficulty", JStr "easy")].

(** An external generator that fails at the second request only, and one
    that is unreachable. *)
Definition fails_second (i : nat) (category : string) : option json :=
  if Nat.eqb i 1 then None else Some answer.

Definition unreachable (i : nat) (category : string) : option json := None.

End Samples.

(* ================================================================== *)
(** ** [save_dataset] and [main] of [create_benchmark_dataset.py] *)

Module Save.

Import Synthesize.

(** The dict that [save_dataset] dumps. *)
Record Document : Type := {
  version : string;
  created_at : string;
  total_examples : Z;
  examples : list entry
}.

Section World.

Variable now : nat -> string.
Variable external : nat -> string -> option json.

(** [save_dataset(examples, output_path)]: the path written and the document
    dumped to it.  Creating the parent directory and opening the file are
    not modelled. *)
Definition save_dataset (examples : list entry) (output_path : string)
    (t : clock) : (string * Document) * clock :=
  ((output_path,
    {| version := "1.0";
       created_at := now t;
       total_examples := Z.of_nat (List.length examples);
       examples := examples |}),
   S t).

(** [main()] after argument parsing: [output] is [args.output] and [count]
    is [args.count], any integer; [range(count)] is empty for a negative
    [count], as for 0. *)
Definition main (api_key : option string) (output : string) (count : Z)
    (t : clock) : result ((string * Document) * clock) :=
  '(examples, t') <-
    generate_synthetic_examples now external api_key (Z.to_nat count) t ;;
  Ok (save_dataset examples output t').

End World.

End Save.

(* ================================================================== *)
(** ** Further notions used in the statements *)

Module MoreSpec.

Import Synthesize.

(** Whether some prediction carries the identifier of the example. *)
Definition covered (predictions : list Prediction) (e : Example) : bool :=
  existsb (fun p => String.eqb (example_id p) (id e)) predictions.

(** The example that the table strategy makes at position 0 when the clock
    has been read [t] times. *)
Definition first_table_example (now : nat -> string) (t : clock) : Example :=
  {| id := "example_001";
     screenshot_path := "benchmarks/screenshots/accessibility_1.png";
     assertion :=
       JStr "The checkout button has sufficient color contrast (WCAG AA)";
     ground_truth :=
       {| verdict := false;
          expected_issues :=
            JArr [JStr "Button contrast ratio is 2.1:1, below WCAG AA requirement of 4.5:1"] |};
     metadata :=
       {| category := "accessibility";
          difficulty := JStr "medium";
          created_at := now t |} |}.

(** Reading the position back from an identifier [example_NNN]. *)
Definition position_of_id (s : string) : option nat :=
  if String.eqb (String.substring 0 8 s) "example_"
  then match SynthSpec.read_nat (String.substring 8 (String.length s - 8) s) with
       | Some (S i) => Some i
       | _ => None
       end
  else None.

(** A clock for the sample runs. *)
Definition sample_clock (k : nat) : string :=
  "2025-01-18T10:00:0" ++ str_of_nat k.

End MoreSpec.

(* ================================================================== *)
(** ** Facts about the metrics *)

Module SklearnFacts.

Import Sklearn Spec.

Lemma combine_fst_snd (ps : list (bool * bool)) :
  combine (map fst ps) (map snd ps) = ps.
Proof.
  induction ps as [|[a p] ps IH]; simpl; [reflexivity|].
  now rewrite IH.
Qed.

Lemma cell_tally (t p : bool) (ps : list (bool * bool)) :
  cell t p (map fst ps) (map snd ps) = tally t p ps.
Proof.
  unfold cell, tally. rewrite combine_fst_snd. f_equal.
  induction ps as [|[a b] ps IH];
    cbn [count_occ filter List.length fst snd]; [reflexivity|].
  destruct (pair_eq_dec (a, b) (t, p)) as [E|N].
  - inversion E; subst. rewrite !Bool.eqb_reflx.
    cbn [andb List.length]. f_equal. exact IH.
  - destruct (Bool.eqb a t) eqn:Ea; destruct (Bool.eqb b p) eqn:Eb;
      cbn [andb]; try exact IH.
    apply Bool.eqb_prop in Ea, Eb. subst. now elim N.
Qed.

Lemma tally_nonneg (t p : bool) (ps : list (bool * bool)) :
  (0 <= tally t p ps)%Z.
Proof. unfold tally. lia. Qed.

Ltac count_cases :=
  repeat match goal with
         | |- context [pair_eq_dec ?x ?y] =>
             destruct (pair_eq_dec x y); try discriminate; try congruence
         end.

Lemma count_total (ps : list (bool * bool)) :
  count_occ pair_eq_dec ps (true, true)
  + count_occ pair_eq_dec ps (false, true)
  + count_occ pair_eq_dec ps (false, false)
  + count_occ pair_eq_dec ps (true, false)
  = List.length ps.
Proof.
  induction ps as [|[[] []] ps IH]; cbn [count_occ List.length];
    [reflexivity| | | |]; count_cases; lia.
Qed.

Lemma count_agree (ps : list (bool * bool)) :
  List.length (filter (fun tp => Bool.eqb (fst tp) (snd tp)) ps)
  = count_occ pair_eq_dec ps (true, true)
    + count_occ pair_eq_dec ps (false, false).
Proof.
  induction ps as [|[[] []] ps IH];
    cbn [count_occ List.length filter fst snd Bool.eqb];
    [reflexivity| | | |]; count_cases; lia.
Qed.

Lemma tally_total (ps : list (bool * bool)) :
  (tally true true ps + tally false true ps
   + tally false false ps + tally true false ps
   = Z.of_nat (List.length ps))%Z.
Proof. unfold tally. rewrite <- (count_total ps). lia. Qed.

Lemma agree_tally (ps : list (bool * bool)) :
  Z.of_nat (List.length (filter (fun tp => Bool.eqb (fst tp) (snd tp)) ps))
  = (tally true true ps + tally false false ps)%Z.
Proof. unfold tally. rewrite count_agree. lia. Qed.

Lemma fdiv_correct (n d : Z) : (fdiv n d == inject_Z n / inject_Z d)%Q.
Proof. unfold fdiv. apply Qred_correct. Qed.

(** The flattened matrix has 0, 1 or 4 cells, after the labels that occur. *)
Lemma ravel_confusion_matrix (y_true y_pred : list bool) :
  ravel (confusion_matrix y_true y_pred) =
    match existsb negb (y_true ++ y_pred),
          existsb (fun b => b) (y_true ++ y_pred) with
    | true, true =>
        [cell false false y_true y_pred; cell false true y_true y_pred;
         cell true false y_true y_pred; cell true true y_true y_pred]
    | true, false => [cell false false y_true y_pred]
    | false, true => [cell true true y_true y_pred]
    | false, false => []
    end.
Proof.
  unfold ravel, confusion_matrix, unique_labels.
  destruct (existsb negb (y_true ++ y_pred));
    destruct (existsb (fun b => b) (y_true ++ y_pred)); reflexivity.
Qed.

End SklearnFacts.

(* ================================================================== *)
(** ** Facts about the evaluator *)

Module EvaluateFacts.

Import Sklearn Spec Evaluate Samples SklearnFacts.

Lemma find_result_first_match (predictions : list Prediction) (k : string) :
  find_result predictions k = first_match k predictions.
Proof.
  unfold find_result.
  induction predictions as [|r rest IH]; cbn [find first_match]; [reflexivity|].
  destruct (string_dec (example_id r) k) as [E|N].
  - apply String.eqb_eq in E. now rewrite E.
  - apply String.eqb_neq in N. now rewrite N.
Qed.

(** The loop appends the matched pairs of the specification to its
    accumulators. *)
Lemma collect_matched (examples : list Example) (predictions : list Prediction) :
  forall y_true y_pred,
    collect examples predictions y_true y_pred =
      (y_true ++ map fst (matched_pairs examples predictions),
       y_pred ++ map snd (matched_pairs examples predictions)).
Proof.
  induction examples as [|e rest IH]; intros y_true y_pred;
    cbn [collect matched_pairs].
  - cbn [map]. now rewrite !app_nil_r.
  - rewrite find_result_first_match.
    destruct (first_match (id e) predictions) as [r|].
    + rewrite IH. cbn [map fst snd]. now rewrite <- !app_assoc.
    + apply IH.
Qed.

Lemma evaluate_results_score (dataset : Dataset.t) (results : Results.t) :
  evaluate_results dataset results =
    let pairs :=
      matched_pairs (Dataset.examples dataset) (Results.predictions results) in
    score (map fst pairs) (map snd pairs).
Proof.
  unfold evaluate_results. now rewrite collect_matched.
Qed.

(** The outcome of [score] on a non-empty sequence of pairs. *)
Lemma score_nonempty (ps : list (bool * bool)) :
  ps <> [] ->
  score (map fst ps) (map snd ps) =
    match ravel (confusion_matrix (map fst ps) (map snd ps)) with
    | [tn; fp; fn; tp] =>
        Ok {| accuracy := accuracy_score (map fst ps) (map snd ps);
              precision := precision_score (map fst ps) (map snd ps);
              recall := recall_score (map fst ps) (map snd ps);
              f1_score := Sklearn.f1_score (map fst ps) (map snd ps);
              true_positives := tp; false_positives := fp;
              true_negatives := tn; false_negatives := fn;
              total_examples := Z.of_nat (List.length (map fst ps)) |}
    | _ => Raise ValueError
    end.
Proof.
  intros Hne. unfold score.
  destruct ps as [|p ps]; [now elim Hne|].
  reflexivity.
Qed.

Lemma score_ok_inv (ps : list (bool * bool)) (r : Report) :
  score (map fst ps) (map snd ps) = Ok r ->
  true_positives r = tally true true ps
  /\ false_positives r = tally false true ps
  /\ true_negatives r = tally false false ps
  /\ false_negatives r = tally true false ps
  /\ total_examples r = Z.of_nat (List.length ps)
  /\ (ps <> [] -> accuracy r = accuracy_score (map fst ps) (map snd ps)).
Proof.
  assert (Hcases : ps = [] \/ ps <> [])
    by (destruct ps; [now left | now right]).
  destruct Hcases as [-> | Hne].
  - cbn. intros H. injection H as <-. cbn.
    repeat split; try reflexivity; intros Hne; now elim Hne.
  - rewrite score_nonempty by assumption.
    rewrite ravel_confusion_matrix.
    destruct (existsb negb _); destruct (existsb (fun b => b) _);
      try discriminate.
    intros H. injection H as <-. cbn [true_positives false_positives
      true_negatives false_negatives total_examples accuracy].
    rewrite !cell_tally, length_map. repeat split; reflexivity.
Qed.

Lemma accuracy_score_pairs (ps : list (bool * bool)) :
  (accuracy_score (map fst ps) (map snd ps)
   == inject_Z (tally true true ps + tally false false ps)
      / inject_Z (Z.of_nat (List.length ps)))%Q.
Proof.
  unfold accuracy_score.
  rewrite combine_fst_snd, agree_tally, length_map.
  apply fdiv_correct.
Qed.

(** *** The first matching prediction *)

Lemma first_match_some (k : string) (predictions : list Prediction)
    (r : Prediction) :
  first_match k predictions = Some r -> In r predictions /\ example_id r = k.
Proof.
  induction predictions as [|a rest IH]; cbn [first_match]; [discriminate|].
  destruct (string_dec (example_id a) k) as [E|N].
  - intros H. injection H as <-. split; [now left | exact E].
  - intros H. destruct (IH H) as [Hin Hid]. split; [now right | exact Hid].
Qed.

Lemma first_match_none (k : string) (predictions : list Prediction) :
  first_match k predictions = None <->
  forall r, In r predictions -> example_id r <> k.
Proof.
  induction predictions as [|a rest IH]; cbn [first_match].
  - split; [intros _ r [] | reflexivity].
  - destruct (string_dec (example_id a) k) as [E|N].
    + split; [discriminate|]. intros H. elim (H a); [now left | exact E].
    + rewrite IH. split.
      * intros H r [<- | Hin]; [exact N | now apply H].
      * intros H r Hin. apply H. now right.
Qed.

Lemma first_match_app (k : string) (front back : list Prediction) :
  first_match k (front ++ back) =
    match first_match k front with
    | Some r => Some r
    | None => first_match k back
    end.
Proof.
  induction front as [|a rest IH]; cbn [first_match app]; [reflexivity|].
  destruct (string_dec (example_id a) k); [reflexivity | exact IH].
Qed.

(** With pairwise distinct identifiers, the first match is the only one. *)
Lemma first_match_unique (predictions : list Prediction) (r : Prediction) :
  NoDup (map example_id predictions) -> In r predictions ->
  first_match (example_id r) predictions = Some r.
Proof.
  induction predictions as [|a rest IH]; cbn [map first_match];
    intros Hnd Hin; [now elim Hin|].
  inversion Hnd as [|x l Hnotin Hnd']; subst.
  destruct Hin as [-> | Hin].
  - destruct (string_dec (example_id r) (example_id r)); [reflexivity|].
    congruence.
  - destruct (string_dec (example_id a) (example_id r)) as [E|N].
    + elim Hnotin. rewrite E. now apply in_map.
    + now apply IH.
Qed.

Lemma first_match_permutation (k : string) (p p' : list Prediction) :
  NoDup (map example_id p) -> Permutation p p' ->
  first_match k p' = first_match k p.
Proof.
  intros Hnd Hperm.
  assert (Hnd' : NoDup (map example_id p'))
    by (eapply Permutation_NoDup; [apply Permutation_map; exact Hperm | exact Hnd]).
  destruct (first_match k p) as [r|] eqn:E.
  - apply first_match_some in E. destruct E as [Hin <-].
    apply first_match_unique; [exact Hnd'|].
    eapply Permutation_in; eassumption.
  - apply first_match_none. intros r Hin.
    rewrite first_match_none in E. apply E.
    eapply Permutation_in; [apply Permutation_sym; exact Hperm | exact Hin].
Qed.

(** *** The matched pairs *)

(** The pairs depend on the predictions only through the first match of
    each dataset identifier. *)
Lemma matched_pairs_ext (examples : list Example) (p p' : list Prediction) :
  (forall e, In e examples -> first_match (id e) p' = first_match (id e) p) ->
  matched_pairs examples p' = matched_pairs examples p.
Proof.
  induction examples as [|e rest IH]; intros H; cbn [matched_pairs];
    [reflexivity|].
  rewrite (H e) by now left.
  rewrite IH by (intros e' Hin; apply H; now right).
  reflexivity.
Qed.

Lemma evaluate_results_ext (dataset : Dataset.t) (results results' : Results.t) :
  (forall e, In e (Dataset.examples dataset) ->
     first_match (id e) (Results.predictions results')
     = first_match (id e) (Results.predictions results)) ->
  evaluate_results dataset results' = evaluate_results dataset results.
Proof.
  intros H. rewrite !evaluate_results_score.
  now rewrite (matched_pairs_ext _ _ _ H).
Qed.

Lemma matched_pairs_length (examples : list Example)
    (predictions : list Prediction) :
  List.length (matched_pairs examples predictions) <= List.length examples.
Proof.
  induction examples as [|e rest IH]; cbn [matched_pairs List.length];
    [lia|].
  destruct (first_match (id e) predictions); cbn [List.length]; lia.
Qed.

(** The identifiers of the examples that found a prediction. *)
Lemma matched_ids (examples : list Example) (predictions : list Prediction) :
  exists ids,
    List.length ids = List.length (matched_pairs examples predictions)
    /\ incl ids (map example_id predictions)
    /\ incl ids (map id examples)
    /\ (NoDup (map id examples) -> NoDup ids).
Proof.
  induction examples as [|e rest IH]; cbn [matched_pairs map].
  - exists []. repeat split; [apply incl_nil_l | apply incl_nil_l | constructor].
  - destruct IH as (ids & Hlen & Hincl & Hsub & Hnd).
    destruct (first_match (id e) predictions) as [r|] eqn:E.
    + apply first_match_some in E. destruct E as [Hin Hid].
      exists (id e :: ids). cbn [List.length]. repeat split.
      * now rewrite Hlen.
      * apply incl_cons; [|exact Hincl]. rewrite <- Hid. now apply in_map.
      * apply incl_cons; [now left | now apply incl_tl].
      * intros Hnodup. inversion Hnodup as [|x l Hnotin Hnodup']; subst.
        constructor; [|now apply Hnd].
        intros Hin'. apply Hnotin. now apply Hsub.
    + exists ids. repeat split.
      * exact Hlen.
      * exact Hincl.
      * now apply incl_tl.
      * intros Hnodup. inversion Hnodup; subst. now apply Hnd.
Qed.

Lemma matched_pairs_no_overlap (examples : list Example)
    (predictions : list Prediction) :
  (forall e p, In e examples -> In p predictions -> id e <> example_id p) ->
  matched_pairs examples predictions = [].
Proof.
  induction examples as [|e rest IH]; intros H; cbn [matched_pairs];
    [reflexivity|].
  assert (E : first_match (id e) predictions = None).
  { apply first_match_none. intros r Hin Heq.
    apply (H e r); [now left | exact Hin | now symmetry]. }
  rewrite E. apply IH. intros e' p' He' Hp'. apply H; [now right | exact Hp'].
Qed.

(** *** Duplicates *)

Lemma first_match_first_occurrences (k : string) (predictions : list Prediction) :
  forall seen, ~ In k seen ->
    first_match k (first_occurrences seen predictions) = first_match k predictions.
Proof.
  induction predictions as [|r rest IH]; intros seen Hk;
    cbn [first_occurrences first_match]; [reflexivity|].
  destruct (in_dec string_dec (example_id r) seen) as [Hseen|Hnew].
  - destruct (string_dec (example_id r) k) as [E|N].
    + elim Hk. now rewrite <- E.
    + now apply IH.
  - cbn [first_match].
    destruct (string_dec (example_id r) k) as [E|N]; [reflexivity|].
    apply IH. intros [E|Hin]; [now elim N | now elim Hk].
Qed.

Lemma first_occurrences_fresh (predictions : list Prediction) :
  forall seen r, In r (first_occurrences seen predictions) ->
    ~ In (example_id r) seen.
Proof.
  induction predictions as [|a rest IH]; intros seen r;
    cbn [first_occurrences]; [intros []|].
  destruct (in_dec string_dec (example_id a) seen) as [Hseen|Hnew].
  - apply IH.
  - intros [<- | Hin]; [exact Hnew|].
    intros Hs. apply (IH _ _ Hin). now right.
Qed.

Lemma first_occurrences_NoDup (predictions : list Prediction) :
  forall seen, NoDup (map example_id (first_occurrences seen predictions)).
Proof.
  induction predictions as [|a rest IH]; intros seen;
    cbn [first_occurrences]; [constructor|].
  destruct (in_dec string_dec (example_id a) seen) as [Hseen|Hnew];
    [apply IH|].
  cbn [map]. constructor; [|apply IH].
  intros Hin. apply in_map_iff in Hin. destruct Hin as (r & Hid & Hin).
  apply first_occurrences_fresh in Hin. apply Hin. left. now symmetry.
Qed.

Lemma known_id_false (examples : list Example) (i : string) :
  known_id examples i = false -> forall e, In e examples -> id e <> i.
Proof.
  unfold known_id. intros H e Hin Heq.
  assert (T : existsb (fun e => String.eqb (id e) i) examples = true).
  { apply existsb_exists. exists e. split; [exact Hin|]. now apply String.eqb_eq. }
  congruence.
Qed.

(** C10.  Whenever [evaluate_results] returns a report, the four confusion
    counts add up to [total_examples], none of them is negative, and, when
    [total_examples] is positive, [accuracy] is
    [(TP + TN) / total_examples]. *)
Theorem report_counts_partition_total (dataset : Dataset.t)
    (results : Results.t) (r : Report) :
  evaluate_results dataset results = Ok r ->
  (true_positives r + false_positives r + true_negatives r
   + false_negatives r = total_examples r)%Z
  /\ (0 <= true_positives r)%Z /\ (0 <= false_positives r)%Z
  /\ (0 <= true_negatives r)%Z /\ (0 <= false_negatives r)%Z
  /\ ((0 < total_examples r)%Z ->
      (accuracy r
       == inject_Z (true_positives r + true_negatives r)
          / inject_Z (total_examples r))%Q).
Proof.
  rewrite evaluate_results_score. cbv zeta. intros H.
  apply score_ok_inv in H.
  destruct H as (Htp & Hfp & Htn & Hfn & Htot & Hacc).
  rewrite Htp, Hfp, Htn, Hfn, Htot.
  repeat split; try apply tally_nonneg.
  - apply tally_total.
  - intros Hpos. rewrite Hacc.
    + apply accuracy_score_pairs.
    + intros E. rewrite E in Hpos. cbn in Hpos. lia.
Qed.

Lemma report_counts_partition_total_witness :
  exists r,
    evaluate_results
      (dataset_of [example_with "e1" true; example_with "e2" false])
      (results_of [pred "e1" true; pred "e2" true]) = Ok r
    /\ (true_positives r + false_positives r + true_negatives r
        + false_negatives r = total_examples r)%Z
    /\ (accuracy r
        == inject_Z (true_positives r + true_negatives r)
           / inject_Z (total_examples r))%Q.
Proof.
  eexists. split; [vm_compute; reflexivity|].
  pose proof (report_counts_partition_total
                (dataset_of [example_with "e1" true; example_with "e2" false])
                (results_of [pred "e1" true; pred "e2" true]) _ eq_refl) as H.
  destruct H as (Hsum & _ & _ & _ & _ & Hacc).
  split; [exact Hsum|]. apply Hacc. reflexivity.
Defined.

(** C6.  On the dataset [e1: true, e2: false] with predictions
    [e1: true, e2: true] the evaluator returns TP = 1, FP = 1, TN = 0,
    FN = 0, accuracy 1/2, precision 1/2 and recall 1; and in every report
    TP counts the matched pairs predicted true and actually true, FP those
    predicted true and actually false, TN those predicted false and
    actually false, FN those predicted false and actually true. *)
Theorem worked_example_confusion_counts :
  (exists r,
      evaluate_results
        (dataset_of [example_with "e1" true; example_with "e2" false])
        (results_of [pred "e1" true; pred "e2" true]) = Ok r
      /\ true_positives r = 1%Z /\ false_positives r = 1%Z
      /\ true_negatives r = 0%Z /\ false_negatives r = 0%Z
      /\ accuracy r = (1 # 2)%Q /\ precision r = (1 # 2)%Q
      /\ recall r = 1%Q)
  /\ (forall dataset results r,
        evaluate_results dataset results = Ok r ->
        let pairs :=
          matched_pairs (Dataset.examples dataset)
                        (Results.predictions results) in
        true_positives r = tally true true pairs
        /\ false_positives r = tally false true pairs
        /\ true_negatives r = tally false false pairs
        /\ false_negatives r = tally true false pairs).
Proof.
  split.
  - eexists. split; [vm_compute; reflexivity|].
    cbn. repeat split; reflexivity.
  - intros dataset results r. rewrite evaluate_results_score. cbv zeta.
    intros H. apply score_ok_inv in H. tauto.
Qed.

Lemma worked_example_confusion_counts_witness :
  exists r,
    evaluate_results
      (dataset_of [example_with "a" true; example_with "b" true;
                   example_with "c" false])
      (results_of [pred "c" false; pred "a" false; pred "b" true]) = Ok r
    /\ true_positives r = 1%Z /\ false_positives r = 0%Z
    /\ true_negatives r = 1%Z /\ false_negatives r = 1%Z.
Proof.
  eexists. split; [vm_compute; reflexivity|].
  destruct worked_example_confusion_counts as [_ H].
  specialize (H (dataset_of [example_with "a" true; example_with "b" true;
                             example_with "c" false])
                (results_of [pred "c" false; pred "a" false; pred "b" true])
                _ eq_refl).
  exact H.
Defined.

(** C5.  When no dataset identifier occurs among the predictions, and in
    particular when there are no predictions, the evaluator returns the
    report with all four rates 0, all four counts 0 and
    [total_examples = 0]. *)
Theorem no_overlap_zero_report (dataset : Dataset.t) (results : Results.t) :
  ((forall e p,
       In e (Dataset.examples dataset) ->
       In p (Results.predictions results) -> id e <> example_id p) ->
   evaluate_results dataset results =
     Ok {| accuracy := 0; precision := 0; recall := 0; f1_score := 0;
           true_positives := 0; false_positives := 0;
           true_negatives := 0; false_negatives := 0;
           total_examples := 0 |})
  /\ evaluate_results dataset {| Results.predictions := [] |} =
       Ok {| accuracy := 0; precision := 0; recall := 0; f1_score := 0;
             true_positives := 0; false_positives := 0;
             true_negatives := 0; false_negatives := 0;
             total_examples := 0 |}.
Proof.
  assert (H : forall res,
             (forall e p,
                 In e (Dataset.examples dataset) ->
                 In p (Results.predictions res) -> id e <> example_id p) ->
             evaluate_results dataset res = Ok empty_report).
  { intros res Hno. rewrite evaluate_results_score. cbv zeta.
    now rewrite matched_pairs_no_overlap. }
  split.
  - apply H.
  - apply H. intros e p _ [].
Qed.

Lemma no_overlap_zero_report_witness :
  evaluate_results
    (dataset_of [example_with "e1" true; example_with "e2" false])
    (results_of [pred "x1" true; pred "x2" false; pred "x1" false])
  = Ok empty_report.
Proof.
  apply (proj1 (no_overlap_zero_report
                  (dataset_of [example_with "e1" true; example_with "e2" false])
                  (results_of [pred "x1" true; pred "x2" false;
                               pred "x1" false]))).
  intros e p He Hp. cbn in He, Hp.
  destruct He as [<- | [<- | []]];
    destruct Hp as [<- | [<- | [<- | []]]]; cbn; discriminate.
Defined.

(** C9.  In a returned report [total_examples] is at most the number of
    dataset examples and, when the dataset identifiers are pairwise
    distinct, at most the number of predictions. *)
Theorem total_examples_bounded (dataset : Dataset.t) (results : Results.t)
    (r : Report) :
  evaluate_results dataset results = Ok r ->
  (total_examples r <= Z.of_nat (List.length (Dataset.examples dataset)))%Z
  /\ (NoDup (map id (Dataset.examples dataset)) ->
      (total_examples r
       <= Z.of_nat (List.length (Results.predictions results)))%Z).
Proof.
  rewrite evaluate_results_score. cbv zeta. intros H.
  apply score_ok_inv in H. destruct H as (_ & _ & _ & _ & Htot & _).
  rewrite Htot. split.
  - pose proof (matched_pairs_length (Dataset.examples dataset)
                                     (Results.predictions results)).
    lia.
  - intros Hnd.
    destruct (matched_ids (Dataset.examples dataset)
                          (Results.predictions results))
      as (ids & Hlen & Hincl & _ & Hnd').
    pose proof (NoDup_incl_length (Hnd' Hnd) Hincl) as Hle.
    rewrite length_map in Hle. lia.
Qed.

Lemma total_examples_bounded_witness :
  exists r,
    evaluate_results
      (dataset_of [example_with "e1" true; example_with "e2" false;
                   example_with "e3" true])
      (results_of [pred "e2" true; pred "e1" true]) = Ok r
    /\ (total_examples r <= 3)%Z /\ (total_examples r <= 2)%Z.
Proof.
  eexists. split; [vm_compute; reflexivity|].
  pose proof (total_examples_bounded
                (dataset_of [example_with "e1" true; example_with "e2" false;
                             example_with "e3" true])
                (results_of [pred "e2" true; pred "e1" true]) _ eq_refl)
    as [H1 H2].
  split; [exact H1|]. apply H2.
  cbn. repeat constructor; cbn; intuition discriminate.
Defined.

(** C8.  When the predictions have pairwise distinct identifiers, every
    permutation of them gives the same outcome; and in general the outcome
    is that of the predictions reduced to the first occurrence of each
    identifier, which are pairwise distinct. *)
Theorem predictions_order_irrelevant (dataset : Dataset.t)
    (results : Results.t) :
  (forall predictions',
      NoDup (map example_id (Results.predictions results)) ->
      Permutation (Results.predictions results) predictions' ->
      evaluate_results dataset {| Results.predictions := predictions' |}
      = evaluate_results dataset results)
  /\ evaluate_results dataset
       {| Results.predictions :=
            first_occurrences [] (Results.predictions results) |}
     = evaluate_results dataset results
  /\ NoDup (map example_id
                (first_occurrences [] (Results.predictions results))).
Proof.
  split; [|split].
  - intros predictions' Hnd Hperm. apply evaluate_results_ext.
    intros e _. now apply first_match_permutation.
  - apply evaluate_results_ext. intros e _.
    apply first_match_first_occurrences. intros [].
  - apply first_occurrences_NoDup.
Qed.

Lemma predictions_order_irrelevant_witness :
  evaluate_results
    (dataset_of [example_with "e1" true; example_with "e2" false])
    (results_of [pred "e2" true; pred "zz" false; pred "e1" false])
  = evaluate_results
      (dataset_of [example_with "e1" true; example_with "e2" false])
      (results_of [pred "e1" false; pred "e2" true; pred "zz" false]).
Proof.
  apply (proj1 (predictions_order_irrelevant
                  (dataset_of [example_with "e1" true; example_with "e2" false])
                  (results_of [pred "e1" false; pred "e2" true;
                               pred "zz" false]))).
  - cbn. repeat constructor; cbn; intuition discriminate.
  - apply (Permutation_middle [pred "e2" true; pred "zz" false] []
                              (pred "e1" false)).
Defined.

(** Two conflicting predictions for one identifier: the first one decides,
    so swapping them changes the report. *)
Example conflicting_predictions :
  evaluate_results
    (dataset_of [example_with "e1" true; example_with "e2" false])
    (results_of [pred "e1" true; pred "e1" false; pred "e2" false])
  = evaluate_results
      (dataset_of [example_with "e1" true; example_with "e2" false])
      (results_of [pred "e1" true; pred "e2" false])
  /\ evaluate_results
       (dataset_of [example_with "e1" true; example_with "e2" false])
       (results_of [pred "e1" false; pred "e1" true; pred "e2" false])
     <> evaluate_results
          (dataset_of [example_with "e1" true; example_with "e2" false])
          (results_of [pred "e1" true; pred "e1" false; pred "e2" false]).
Proof. split; vm_compute; [reflexivity | discriminate]. Qed.

(** C4.  The sequences built by the loop are the ground truths and the
    predictions of the matched pairs: each example, in dataset order, with
    the first prediction carrying its identifier, and nothing for an
    example without one; [total_examples] is the number of these pairs.  A
    prediction that repeats the identifier of an earlier one, or whose
    identifier no example has, can be removed without changing the
    outcome.  (Distinct dataset identifiers are not needed.) *)
Theorem join_is_first_match (dataset : Dataset.t) (results : Results.t) :
  let examples := Dataset.examples dataset in
  let predictions := Results.predictions results in
  collect examples predictions [] []
  = (map fst (matched_pairs examples predictions),
     map snd (matched_pairs examples predictions))
  /\ (forall r, evaluate_results dataset results = Ok r ->
       total_examples r
       = Z.of_nat (List.length (matched_pairs examples predictions)))
  /\ (forall front later back,
        predictions = front ++ later :: back ->
        (exists earlier,
            In earlier front /\ example_id earlier = example_id later) ->
        evaluate_results dataset {| Results.predictions := front ++ back |}
        = evaluate_results dataset results)
  /\ (forall front stray back,
        predictions = front ++ stray :: back ->
        known_id examples (example_id stray) = false ->
        evaluate_results dataset {| Results.predictions := front ++ back |}
        = evaluate_results dataset results).
Proof.
  cbv zeta. split; [|split; [|split]].
  - apply collect_matched.
  - intros r. rewrite evaluate_results_score. cbv zeta. intros H.
    apply score_ok_inv in H. tauto.
  - intros front later back Hsplit (earlier & Hin & Hid).
    apply evaluate_results_ext. intros e _.
    rewrite Hsplit. cbn [Results.predictions].
    rewrite !first_match_app.
    destruct (first_match (id e) front) as [r|] eqn:E; [reflexivity|].
    cbn [first_match].
    destruct (string_dec (example_id later) (id e)) as [Heq|]; [|reflexivity].
    rewrite first_match_none in E. elim (E earlier Hin). congruence.
  - intros front stray back Hsplit Hunknown.
    apply evaluate_results_ext. intros e He.
    rewrite Hsplit. cbn [Results.predictions].
    rewrite !first_match_app. cbn [first_match].
    destruct (string_dec (example_id stray) (id e)) as [Heq|]; [|reflexivity].
    elim (known_id_false _ _ Hunknown e He). now symmetry.
Qed.

Lemma join_is_first_match_witness :
  evaluate_results
    (dataset_of [example_with "e1" true; example_with "e2" false])
    (results_of [pred "e1" false; pred "e2" true])
  = evaluate_results
      (dataset_of [example_with "e1" true; example_with "e2" false])
      (results_of [pred "e1" false; pred "e1" true; pred "e2" true])
  /\ evaluate_results
       (dataset_of [example_with "e1" true; example_with "e2" false])
       (results_of [pred "e1" false; pred "e1" true])
     = evaluate_results
         (dataset_of [example_with "e1" true; example_with "e2" false])
         (results_of [pred "e1" false; pred "e1" true; pred "e9" true]).
Proof.
  split.
  - destruct (join_is_first_match
                (dataset_of [example_with "e1" true; example_with "e2" false])
                (results_of [pred "e1" false; pred "e1" true; pred "e2" true]))
      as (_ & _ & Hdup & _).
    apply (Hdup [pred "e1" false] (pred "e1" true) [pred "e2" true] eq_refl).
    exists (pred "e1" false). split; [now left | reflexivity].
  - destruct (join_is_first_match
                (dataset_of [example_with "e1" true; example_with "e2" false])
                (results_of [pred "e1" false; pred "e1" true; pred "e9" true]))
      as (_ & _ & _ & Hstray).
    apply (Hstray [pred "e1" false; pred "e1" true] (pred "e9" true) []
                  eq_refl).
    reflexivity.
Defined.

(** *** Labels of a single class *)

Lemma existsb_all_equal (f : bool -> bool) (c : bool) (l : list bool) :
  l <> [] -> (forall b, In b l -> b = c) -> existsb f l = f c.
Proof.
  induction l as [|a l IH]; intros Hne Hall; [now elim Hne|].
  cbn [existsb]. rewrite (Hall a) by now left.
  destruct l as [|a' l'].
  - cbn. apply Bool.orb_false_r.
  - rewrite IH; [apply Bool.orb_diag | discriminate |].
    intros b Hb. apply Hall. now right.
Qed.

(** When the matched pairs are not empty and every ground truth and every
    prediction among them is the same class, the unpacking of the 1 x 1
    matrix raises. *)
Lemma single_class_raises (dataset : Dataset.t) (results : Results.t)
    (c : bool) :
  let pairs :=
    matched_pairs (Dataset.examples dataset) (Results.predictions results) in
  pairs <> [] ->
  (forall a p, In (a, p) pairs -> a = c /\ p = c) ->
  evaluate_results dataset results = Raise ValueError.
Proof.
  intros ps Hne Hall. rewrite evaluate_results_score. cbv zeta. fold ps.
  rewrite score_nonempty by exact Hne.
  rewrite ravel_confusion_matrix.
  assert (Hne' : map fst ps ++ map snd ps <> []).
  { destruct ps; [now elim Hne | discriminate]. }
  assert (Hall' : forall b, In b (map fst ps ++ map snd ps) -> b = c).
  { intros b Hb. apply in_app_or in Hb.
    destruct Hb as [Hb|Hb]; apply in_map_iff in Hb;
      destruct Hb as ([a p] & <- & Hin); now destruct (Hall a p Hin). }
  rewrite (existsb_all_equal negb c _ Hne' Hall').
  rewrite (existsb_all_equal (fun b => b) c _ Hne' Hall').
  destruct c; reflexivity.
Qed.

(** When both classes occur among the matched labels, a report is
    returned. *)
Lemma both_classes_return (dataset : Dataset.t) (results : Results.t) :
  let pairs :=
    matched_pairs (Dataset.examples dataset) (Results.predictions results) in
  In false (map fst pairs ++ map snd pairs) ->
  In true (map fst pairs ++ map snd pairs) ->
  exists r, evaluate_results dataset results = Ok r.
Proof.
  intros ps Hf Ht. rewrite evaluate_results_score. cbv zeta. fold ps.
  assert (Hne : ps <> []) by (intros E; rewrite E in Hf; exact Hf).
  rewrite score_nonempty by exact Hne.
  rewrite ravel_confusion_matrix.
  assert (E1 : existsb negb (map fst ps ++ map snd ps) = true)
    by (apply existsb_exists; exists false; now split).
  assert (E2 : existsb (fun b => b) (map fst ps ++ map snd ps) = true)
    by (apply existsb_exists; exists true; now split).
  rewrite E1, E2. eexists. reflexivity.
Qed.

(** C1.  Three examples with verdict false and three predictions of false:
    the claim asks for a report with accuracy 1, precision 0, recall 0 and
    TN = 3; the evaluator raises [ValueError] instead. *)
Theorem all_false_raises :
  evaluate_results
    (dataset_of [example_with "e1" false; example_with "e2" false;
                 example_with "e3" false])
    (results_of [pred "e1" false; pred "e2" false; pred "e3" false])
  = Raise ValueError.
Proof. vm_compute. reflexivity. Qed.

End EvaluateFacts.

(* ================================================================== *)
(** ** Facts about the synthesizer *)

Module SynthesizeFacts.

Import Synthesize SynthSpec.

(** *** Identifiers *)

Lemma read_nat_zeros (k : nat) (s : string) (n : nat) :
  read_nat s = Some n -> read_nat (zeros k ++ s) = Some n.
Proof.
  unfold read_nat. intros H. induction k as [|k IH]; [exact H|].
  cbn [zeros String.append NilEmpty.uint_of_string].
  destruct (NilEmpty.uint_of_string (zeros k ++ s)) as [d|]; [|discriminate].
  cbn in IH |- *. exact IH.
Qed.

Lemma read_nat_format_03d (n : nat) : read_nat (format_03d n) = Some n.
Proof.
  unfold format_03d. apply read_nat_zeros.
  unfold read_nat, str_of_nat. rewrite NilEmpty.usu. cbn [option_map].
  now rewrite Unsigned.of_to.
Qed.

Lemma example_id_of_injective (i j : nat) :
  example_id_of i = example_id_of j -> i = j.
Proof.
  unfold example_id_of. intros H.
  cbn [String.append] in H. injection H as H.
  assert (E : Some (i + 1) = Some (j + 1))
    by (rewrite <- !read_nat_format_03d; now rewrite H).
  injection E as E. lia.
Qed.

Lemma example_ids_NoDup (l : list nat) :
  NoDup l -> NoDup (map example_id_of l).
Proof.
  induction 1 as [|i l Hnotin Hnd IH]; cbn [map]; constructor; [|exact IH].
  intros Hin. apply in_map_iff in Hin. destruct Hin as (j & Hj & Hin).
  apply example_id_of_injective in Hj. now subst.
Qed.

(** *** The loops *)

(** A loop whose body always appends one element satisfying [P] at its
    position returns, having appended one such element per position. *)
Lemma for_each_appends {X : Type}
    (body : nat -> list X * clock -> result (list X * clock))
    (P : nat -> X -> Prop) :
  (forall i xs t, exists x t', body i (xs, t) = Ok (xs ++ [x], t') /\ P i x) ->
  forall l xs t,
  exists new t',
    for_each body l (xs, t) = Ok (xs ++ new, t') /\ Forall2 P l new.
Proof.
  intros Hbody. induction l as [|i l IH]; intros xs t; cbn [for_each].
  - exists [], t. rewrite app_nil_r. split; [reflexivity | constructor].
  - destruct (Hbody i xs t) as (x & t1 & Hstep & HP).
    rewrite Hstep. cbn [bind].
    destruct (IH (xs ++ [x]) t1) as (new & t2 & Hrest & Hall).
    exists (x :: new), t2. rewrite Hrest, <- app_assoc.
    split; [reflexivity | now constructor].
Qed.

Section Run.

Variable now : nat -> string.
Variable external : nat -> string -> option json.

Lemma mock_body_ok (i : nat) (examples : list Example) (t : clock) :
  exists e t',
    mock_body now i (examples, t) = Ok (examples ++ [e], t') /\ mock_at i e.
Proof.
  unfold mock_body, mock_at, at_position, from_table, category_at.
  change (List.length categories) with 5.
  pose proof (Nat.mod_upper_bound i 5 ltac:(lia)) as Hlt.
  destruct (i mod 5) as [|[|[|[|[|k]]]]]; [| | | | |lia];
    (eexists; eexists; split; [reflexivity|];
     split; [repeat split|split; [|reflexivity]];
     eexists; split; [reflexivity|]; repeat split).
Qed.

Lemma generate_mock_examples_ok (count : nat) (t : clock) :
  exists examples t',
    generate_mock_examples now count t = Ok (examples, t')
    /\ Forall2 mock_at (range count) examples.
Proof.
  unfold generate_mock_examples.
  destruct (for_each_appends (mock_body now) mock_at mock_body_ok
                             (range count) [] t)
    as (new & t' & Hrun & Hall).
  exists new, t'. split; [exact Hrun | exact Hall].
Qed.

(** The single fallback example is the one of position 0, whatever
    [index] and [category] are. *)
Lemma generate_mock_example_ok (index : nat) (category : string) (t : clock) :
  exists e t',
    generate_mock_example now index category t = Ok (Filled e, t')
    /\ mock_at 0 e.
Proof.
  unfold generate_mock_example.
  destruct (generate_mock_examples_ok 1 t) as (examples & t' & Hrun & Hall).
  rewrite Hrun. cbn [bind].
  inversion Hall as [|i e l l' He Hrest]; subst.
  exists e, t'. split; [reflexivity | exact He].
Qed.

Lemma getitem_category (i : nat) :
  getitem categories (i mod List.length categories) = Ok (category_at i).
Proof.
  unfold category_at. change (List.length categories) with 5.
  pose proof (Nat.mod_upper_bound i 5 ltac:(lia)) as Hlt.
  destruct (i mod 5) as [|[|[|[|[|k]]]]]; [reflexivity..|lia].
Qed.

Lemma try_external_some (i : nat) (c : string) (t : clock)
    (e : Example) (t' : clock) :
  try_external now external i c t = Some (e, t') ->
  id e = example_id_of i /\ category (metadata e) = c
  /\ screenshot_path e = screenshot_of c i
  /\ verdict (ground_truth e) = false.
Proof.
  unfold try_external.
  destruct (external i c) as [data|]; [|discriminate].
  destruct (subscript data "assertion"); [|discriminate].
  destruct (subscript data "expected_issues"); [|discriminate].
  destruct (subscript data "difficulty"); [|discriminate].
  intros H. injection H as <- _. repeat split.
Qed.

Lemma synth_body_ok (i : nat) (entries : list entry) (t : clock) :
  exists x t',
    synth_body now external i (entries, t) = Ok (entries ++ [x], t')
    /\ synth_at now external i x.
Proof.
  unfold synth_body. rewrite getitem_category. cbn [bind].
  destruct (try_external now external i (category_at i) t)
    as [[e t']|] eqn:E.
  - exists (Filled e), t'. split; [reflexivity|].
    exists e. apply try_external_some in E as Hsome.
    destruct Hsome as (Hid & Hcat & Hpath & Hv).
    split; [reflexivity|]. split; [exact Hv|]. left. split.
    + exists t. now rewrite E.
    + unfold at_position. rewrite Hcat. now repeat split.
  - destruct (generate_mock_example_ok (i + 1) (category_at i) t)
      as (e & t' & Hrun & Hmock).
    rewrite Hrun. cbn [bind]. exists (Filled e), t'.
    split; [reflexivity|].
    exists e. split; [reflexivity|]. split; [apply Hmock|].
    right. split; [now exists t | exact Hmock].
Qed.

(** The table strategy is taken when no key is set. *)
Lemma table_run (api_key : option string) (count : nat) (t : clock) :
  api_key = None \/ api_key = Some EmptyString ->
  exists examples t',
    generate_synthetic_examples now external api_key count t
    = Ok (map Filled examples, t')
    /\ Forall2 mock_at (range count) examples.
Proof.
  intros Hkey.
  destruct (generate_mock_examples_ok count t) as (examples & t' & Hrun & Hall).
  exists examples, t'. split; [|exact Hall].
  unfold generate_synthetic_examples.
  destruct Hkey as [-> | ->]; rewrite Hrun; reflexivity.
Qed.

(** The external strategy is taken with a non-empty key. *)
Lemma external_run (c : ascii) (key : string) (count : nat) (t : clock) :
  exists entries t',
    generate_synthetic_examples now external (Some (String c key)) count t
    = Ok (entries, t')
    /\ Forall2 (synth_at now external) (range count) entries.
Proof.
  cbn [generate_synthetic_examples].
  destruct (for_each_appends (synth_body now external) (synth_at now external)
                             synth_body_ok (range count) [] t)
    as (new & t' & Hrun & Hall).
  exists new, t'. split; [exact Hrun | exact Hall].
Qed.

End Run.

(** *** Consequences for the returned list *)

Lemma Forall2_length_eq {A B : Type} (R : A -> B -> Prop) (l : list A)
    (l' : list B) :
  Forall2 R l l' -> List.length l' = List.length l.
Proof. induction 1; cbn [List.length]; congruence. Qed.

Lemma at_positions (l : list nat) (examples : list Example) :
  Forall2 at_position l examples ->
  map id examples = map example_id_of l
  /\ map (fun e => category (metadata e)) examples = map category_at l.
Proof.
  induction 1 as [|i e l es (Hid & Hcat & _) _ [IH1 IH2]]; cbn [map];
    [split; reflexivity|].
  now rewrite Hid, Hcat, IH1, IH2.
Qed.

Lemma categories_NoDup : NoDup categories.
Proof. unfold categories. repeat constructor; cbn; intuition discriminate. Qed.

Lemma category_at_nth (i k : nat) :
  k < 5 -> (category_at i = nth k categories EmptyString <-> i mod 5 = k).
Proof.
  intros Hk. unfold category_at. split; [|now intros ->].
  apply (proj1 (NoDup_nth categories EmptyString) categories_NoDup).
  - change (List.length categories) with 5. apply Nat.mod_upper_bound. lia.
  - exact Hk.
Qed.

Lemma count_category_at (k : nat) (l : list nat) :
  k < 5 ->
  count_occ string_dec (map category_at l) (nth k categories EmptyString)
  = List.length (filter (fun i => Nat.eqb (i mod 5) k) l).
Proof.
  intros Hk. induction l as [|i l IH]; cbn [map count_occ filter];
    [reflexivity|].
  destruct (string_dec (category_at i) (nth k categories EmptyString)) as [E|N].
  - apply category_at_nth in E; [|exact Hk].
    apply Nat.eqb_eq in E. rewrite E. cbn [List.length]. now rewrite IH.
  - destruct (Nat.eqb_spec (i mod 5) k) as [E|_]; [|exact IH].
    elim N. now apply category_at_nth.
Qed.

Lemma succ_div_mod_5 (n : nat) :
  (n mod 5 = 4 /\ S n / 5 = S (n / 5) /\ S n mod 5 = 0)
  \/ (n mod 5 < 4 /\ S n / 5 = n / 5 /\ S n mod 5 = S (n mod 5)).
Proof.
  pose proof (Nat.div_mod_eq n 5) as Hdm.
  pose proof (Nat.mod_upper_bound n 5 ltac:(lia)) as Hlt.
  destruct (Nat.eq_dec (n mod 5) 4) as [E|N].
  - left. split; [exact E|]. split.
    + symmetry. apply (Nat.div_unique (S n) 5 (S (n / 5)) 0); lia.
    + symmetry. apply (Nat.mod_unique (S n) 5 (S (n / 5)) 0); lia.
  - right. split; [lia|]. split.
    + symmetry. apply (Nat.div_unique (S n) 5 (n / 5) (S (n mod 5))); lia.
    + symmetry. apply (Nat.mod_unique (S n) 5 (n / 5) (S (n mod 5))); lia.
Qed.

(** Among the first [n] positions, residue [k] occurs [n / 5] times, and once
    more when [k] is below [n mod 5]. *)
Lemma count_residue (k n : nat) :
  k < 5 ->
  List.length (filter (fun i => Nat.eqb (i mod 5) k) (seq 0 n))
  = n / 5 + (if Nat.ltb k (n mod 5) then 1 else 0).
Proof.
  intros Hk. induction n as [|n IH]; [reflexivity|].
  rewrite seq_S, filter_app, length_app, IH. cbn [filter Nat.add].
  destruct (succ_div_mod_5 n) as [(Hm & Hq & Hr) | (Hm & Hq & Hr)];
    rewrite Hq, Hr;
    destruct (Nat.eqb_spec (n mod 5) k);
    destruct (Nat.ltb_spec k (n mod 5));
    try destruct (Nat.ltb_spec k 0);
    try destruct (Nat.ltb_spec k (S (n mod 5)));
    cbn [List.length]; lia.
Qed.

Lemma round_robin_balanced (examples : list Example) (n : nat) :
  Forall2 at_position (seq 0 n) examples -> balanced examples.
Proof.
  intros Hall c1 c2 H1 H2. unfold category_count.
  rewrite (proj2 (at_positions _ _ Hall)).
  apply (In_nth _ _ EmptyString) in H1. destruct H1 as (k1 & Hk1 & <-).
  apply (In_nth _ _ EmptyString) in H2. destruct H2 as (k2 & Hk2 & <-).
  change (List.length categories) with 5 in Hk1, Hk2.
  rewrite !count_category_at, !count_residue by assumption.
  destruct (Nat.ltb k1 (n mod 5)); destruct (Nat.ltb k2 (n mod 5)); lia.
Qed.

Lemma round_robin_distinct_ids (examples : list Example) (n : nat) :
  Forall2 at_position (seq 0 n) examples -> NoDup (map id examples).
Proof.
  intros Hall. rewrite (proj1 (at_positions _ _ Hall)).
  apply example_ids_NoDup, seq_NoDup.
Qed.

Lemma Forall2_weaken {A B : Type} (R R' : A -> B -> Prop) (l : list A)
    (l' : list B) :
  (forall a b, In a l -> R a b -> R' a b) -> Forall2 R l l' -> Forall2 R' l l'.
Proof.
  intros H Hall. induction Hall as [|a b l l' Hab Hall IH]; constructor.
  - apply H; [now left | exact Hab].
  - apply IH. intros a' b' Hin. apply H. now right.
Qed.

Lemma Forall2_filled (R : nat -> Example -> Prop) (l : list nat)
    (entries : list entry) :
  Forall2 (fun i x => exists e, x = Filled e /\ R i e) l entries ->
  exists examples, entries = map Filled examples /\ Forall2 R l examples.
Proof.
  induction 1 as [|i x l entries (e & -> & He) _ (examples & -> & IH)].
  - exists []. split; [reflexivity | constructor].
  - exists (e :: examples). split; [reflexivity | now constructor].
Qed.

(** The table strategy, taken when no key is set, meets the contract of
    [generate]: exactly [count] examples, pairwise distinct identifiers,
    balanced categories. *)
Lemma table_strategy_contract (now : nat -> string)
    (external : nat -> string -> option json) (api_key : option string)
    (count : nat) (t : clock) :
  api_key = None \/ api_key = Some EmptyString ->
  exists examples t',
    generate_synthetic_examples now external api_key count t
    = Ok (map Filled examples, t')
    /\ List.length examples = count
    /\ NoDup (map id examples)
    /\ balanced examples.
Proof.
  intros Hkey.
  destruct (table_run now external api_key count t Hkey)
    as (examples & t' & Hrun & Hall).
  exists examples, t'.
  assert (Hpos : Forall2 at_position (seq 0 count) examples)
    by (apply (Forall2_weaken mock_at); [intros a b _ H; apply H | exact Hall]).
  split; [exact Hrun|]. split; [|split].
  - rewrite (Forall2_length_eq _ _ _ Hall). apply length_seq.
  - now apply round_robin_distinct_ids with count.
  - now apply round_robin_balanced with count.
Qed.

(** So does the external strategy in a run in which no request fails. *)
Lemma external_strategy_contract (now : nat -> string)
    (external : nat -> string -> option json) (c : ascii) (key : string)
    (count : nat) (t : clock) :
  (forall i t, i < count ->
     try_external now external i (category_at i) t <> None) ->
  exists examples t',
    generate_synthetic_examples now external (Some (String c key)) count t
    = Ok (map Filled examples, t')
    /\ List.length examples = count
    /\ NoDup (map id examples)
    /\ balanced examples.
Proof.
  intros Hgood.
  destruct (external_run now external c key count t)
    as (entries & t' & Hrun & Hall).
  assert (Hfilled :
    Forall2 (fun i x => exists e, x = Filled e /\ at_position i e)
            (seq 0 count) entries).
  { apply (Forall2_weaken (synth_at now external)); [|exact Hall].
    intros i x Hin (e & -> & _ & [[_ Hpos] | [[t0 Hfail] _]]).
    - now exists e.
    - apply in_seq in Hin. elim (Hgood i t0); [lia | exact Hfail]. }
  apply Forall2_filled in Hfilled. destruct Hfilled as (examples & -> & Hpos).
  exists examples, t'. split; [exact Hrun|]. split; [|split].
  - rewrite (Forall2_length_eq _ _ _ Hpos). apply length_seq.
  - now apply round_robin_distinct_ids with count.
  - now apply round_robin_balanced with count.
Qed.

Lemma Forall2_right {A B : Type} (R : A -> B -> Prop) (P : B -> Prop)
    (l : list A) (l' : list B) :
  (forall a b, R a b -> P b) -> Forall2 R l l' -> Forall P l'.
Proof.
  intros H. induction 1 as [|a b l l' Hab _ IH]; constructor;
    [now apply (H a) | exact IH].
Qed.

(** C7.  In both strategies, for every [count], the synthesizer returns
    [count] entries, each of them an example whose [ground_truth.verdict]
    is false. *)
Theorem every_verdict_false (now : nat -> string)
    (external : nat -> string -> option json) (api_key : option string)
    (count : nat) (t : clock) :
  exists entries t',
    generate_synthetic_examples now external api_key count t
    = Ok (entries, t')
    /\ List.length entries = count
    /\ Forall (fun x => exists e,
                  x = Filled e /\ verdict (ground_truth e) = false) entries.
Proof.
  assert (Htable : api_key = None \/ api_key = Some EmptyString ->
    exists entries t',
      generate_synthetic_examples now external api_key count t
      = Ok (entries, t')
      /\ List.length entries = count
      /\ Forall (fun x => exists e,
                    x = Filled e /\ verdict (ground_truth e) = false) entries).
  { intros Hkey.
    destruct (table_run now external api_key count t Hkey)
      as (examples & t' & Hrun & Hall).
    exists (map Filled examples), t'. split; [exact Hrun|]. split.
    - rewrite length_map, (Forall2_length_eq _ _ _ Hall). apply length_seq.
    - apply Forall_map.
      apply (Forall2_right mock_at _ (range count)); [|exact Hall].
      intros i e (_ & _ & Hv). now exists e. }
  destruct api_key as [[|c key]|]; [apply Htable; now right | | apply Htable; now left].
  destruct (external_run now external c key count t)
    as (entries & t' & Hrun & Hall).
  exists entries, t'. split; [exact Hrun|]. split.
  - rewrite (Forall2_length_eq _ _ _ Hall). apply length_seq.
  - apply (Forall2_right (synth_at now external) _ (range count)); [|exact Hall].
    intros i x (e & Hx & Hv & _). now exists e.
Qed.

(** C2.  With a key set and the second of two requests failing, the entry
    substituted at position 1 has the identifier and the category of
    position 0 ([example_001], accessibility), where the claim asks for
    those of position 1 ([example_002], layout). *)
Theorem fallback_repeats_first_position (now : nat -> string) :
  exists e0 e1 t',
    generate_synthetic_examples now Samples.fails_second (Some "key") 2 0
    = Ok ([Filled e0; Filled e1], t')
    /\ id e0 = "example_001"
    /\ assertion e0 = JStr "Every image has alternative text"
    /\ id e1 = "example_001" /\ example_id_of 1 = "example_002"
    /\ category (metadata e1) = "accessibility" /\ category_at 1 = "layout"
    /\ assertion e1
       = JStr "The checkout button has sufficient color contrast (WCAG AA)"
    /\ dict_get mock_data (category_at 1)
       = Ok {| mock_assertion :=
                 "The navigation menu is visible without scrolling";
               mock_issues :=
                 ["Navigation menu is pushed below fold due to large hero image"];
               mock_difficulty := "easy" |}.
Proof.
  do 3 eexists. split; [reflexivity|]. repeat split.
Qed.

(** C3.  With a key set and the generator unreachable, two examples are
    returned with the same identifier, both in the first category: the
    identifiers are not pairwise distinct and the categories are not
    balanced. *)
Theorem failed_requests_break_contract (now : nat -> string) :
  exists e0 e1 t',
    generate_synthetic_examples now Samples.unreachable (Some "key") 2 0
    = Ok ([Filled e0; Filled e1], t')
    /\ id e0 = "example_001" /\ id e1 = "example_001"
    /\ ~ NoDup (map id [e0; e1])
    /\ category_count "accessibility" [e0; e1] = 2
    /\ category_count "layout" [e0; e1] = 0
    /\ ~ balanced [e0; e1].
Proof.
  do 3 eexists. split; [reflexivity|].
  split; [reflexivity|]. split; [reflexivity|]. split; [|split; [|split]].
  - cbn [map id]. intros Hnd. inversion Hnd as [|x l Hnotin _]; subst.
    apply Hnotin. now left.
  - reflexivity.
  - reflexivity.
  - intros Hbal.
    specialize (Hbal "accessibility" "layout").
    assert (H : 2 <= 0 + 1).
    { apply Hbal; unfold categories; cbn; auto. }
    lia.
Qed.

End SynthesizeFacts.

(* ================================================================== *)
(** ** Further facts about the evaluator *)

Module EvaluateMore.

Import Sklearn Spec Evaluate Samples SklearnFacts EvaluateFacts MoreSpec.

(** *** Rationals *)

Lemma fdiv_bounds (n d : Z) :
  (0 <= n <= d)%Z -> (0 < d)%Z -> (0 <= fdiv n d /\ fdiv n d <= 1)%Q.
Proof.
  intros Hn Hd. rewrite fdiv_correct.
  destruct d as [|d|d]; try lia.
  unfold Qle, Qdiv, Qmult, Qinv, inject_Z; cbn. split; nia.
Qed.

Lemma prf_divide_bounds (n d : Z) :
  (0 <= n <= d)%Z -> (0 <= prf_divide n d /\ prf_divide n d <= 1)%Q.
Proof.
  intros Hn. unfold prf_divide.
  destruct (Z.eqb_spec d 0) as [E|N].
  - split; [apply Qle_refl | discriminate].
  - apply fdiv_bounds; lia.
Qed.

Lemma prf_divide_0 (d : Z) : (prf_divide 0 d == 0)%Q.
Proof.
  unfold prf_divide. destruct (d =? 0)%Z; [reflexivity|].
  rewrite fdiv_correct. reflexivity.
Qed.

(** *** The report in terms of the matched pairs *)

(** Every field of a returned report, from the tallies of the matched
    pairs. *)
Lemma score_ok_fields (ps : list (bool * bool)) (r : Report) :
  score (map fst ps) (map snd ps) = Ok r ->
  let tp := tally true true ps in
  let fp := tally false true ps in
  let tn := tally false false ps in
  let fn := tally true false ps in
  true_positives r = tp /\ false_positives r = fp
  /\ true_negatives r = tn /\ false_negatives r = fn
  /\ total_examples r = (tp + fp + tn + fn)%Z
  /\ accuracy r = (if (tp + fp + tn + fn =? 0)%Z then 0%Q
                   else fdiv (tp + tn) (tp + fp + tn + fn))
  /\ precision r = prf_divide tp (tp + fp)
  /\ recall r = prf_divide tp (tp + fn)
  /\ Evaluate.f1_score r = prf_divide (2 * tp) (tp + fn + (tp + fp)).
Proof.
  cbv zeta. rewrite tally_total.
  assert (Hcases : ps = [] \/ ps <> [])
    by (destruct ps; [now left | now right]).
  destruct Hcases as [-> | Hne].
  - cbn. intros H. injection H as <-. cbn. repeat split; reflexivity.
  - rewrite score_nonempty by assumption.
    rewrite ravel_confusion_matrix.
    destruct (existsb negb _); destruct (existsb (fun b => b) _);
      try discriminate.
    intros H. injection H as <-.
    cbn [true_positives false_positives true_negatives false_negatives
         total_examples accuracy precision recall Evaluate.f1_score].
    unfold accuracy_score, precision_score, recall_score, Sklearn.f1_score,
      tp_sum, pred_sum, true_sum.
    rewrite combine_fst_snd, agree_tally, !cell_tally, length_map.
    assert (Hlen : (Z.of_nat (List.length ps) =? 0)%Z = false).
    { apply Z.eqb_neq. destruct ps; [now elim Hne | cbn [List.length]; lia]. }
    rewrite Hlen. repeat split; reflexivity.
Qed.

Lemma evaluate_results_fields (dataset : Dataset.t) (results : Results.t)
    (r : Report) :
  evaluate_results dataset results = Ok r ->
  let pairs :=
    matched_pairs (Dataset.examples dataset) (Results.predictions results) in
  let tp := tally true true pairs in
  let fp := tally false true pairs in
  let tn := tally false false pairs in
  let fn := tally true false pairs in
  true_positives r = tp /\ false_positives r = fp
  /\ true_negatives r = tn /\ false_negatives r = fn
  /\ total_examples r = (tp + fp + tn + fn)%Z
  /\ accuracy r = (if (tp + fp + tn + fn =? 0)%Z then 0%Q
                   else fdiv (tp + tn) (tp + fp + tn + fn))
  /\ precision r = prf_divide tp (tp + fp)
  /\ recall r = prf_divide tp (tp + fn)
  /\ Evaluate.f1_score r = prf_divide (2 * tp) (tp + fn + (tp + fp)).
Proof.
  rewrite evaluate_results_score. cbv zeta. apply score_ok_fields.
Qed.

(** X1.  In every returned report the four rates lie between 0 and 1. *)
Theorem rates_between_0_and_1 (dataset : Dataset.t) (results : Results.t)
    (r : Report) :
  evaluate_results dataset results = Ok r ->
  (0 <= accuracy r /\ accuracy r <= 1)%Q
  /\ (0 <= precision r /\ precision r <= 1)%Q
  /\ (0 <= recall r /\ recall r <= 1)%Q
  /\ (0 <= Evaluate.f1_score r /\ Evaluate.f1_score r <= 1)%Q.
Proof.
  intros H. apply evaluate_results_fields in H. cbv zeta in H.
  destruct H as (_ & _ & _ & _ & _ & Hacc & Hpre & Hrec & Hf1).
  set (ps := matched_pairs _ _) in *.
  pose proof (tally_nonneg true true ps).
  pose proof (tally_nonneg false true ps).
  pose proof (tally_nonneg false false ps).
  pose proof (tally_nonneg true false ps).
  rewrite Hacc, Hpre, Hrec, Hf1.
  split; [|split; [|split]]; apply prf_divide_bounds; lia.
Qed.

Lemma rates_between_0_and_1_witness :
  exists r,
    evaluate_results
      (dataset_of [example_with "e1" true; example_with "e2" false;
                   example_with "e3" true])
      (results_of [pred "e1" true; pred "e2" true; pred "e3" false]) = Ok r
    /\ (0 <= accuracy r /\ accuracy r <= 1)%Q
    /\ (0 <= Evaluate.f1_score r /\ Evaluate.f1_score r <= 1)%Q.
Proof.
  eexists. split; [vm_compute; reflexivity|].
  pose proof (rates_between_0_and_1
                (dataset_of [example_with "e1" true; example_with "e2" false;
                             example_with "e3" true])
                (results_of [pred "e1" true; pred "e2" true; pred "e3" false])
                _ eq_refl) as (Ha & _ & _ & Hf).
  split; [exact Ha | exact Hf].
Defined.

(** X2.  The rates of a returned report follow from its own counts:
    precision is TP / (TP + FP), recall is TP / (TP + FN) and F1 is
    2 TP / (2 TP + FP + FN), each of them 0 when its denominator is 0. *)
Theorem rates_from_counts (dataset : Dataset.t) (results : Results.t)
    (r : Report) :
  evaluate_results dataset results = Ok r ->
  let tp := true_positives r in
  let fp := false_positives r in
  let fn := false_negatives r in
  (precision r
   == if (tp + fp =? 0)%Z then 0 else inject_Z tp / inject_Z (tp + fp))%Q
  /\ (recall r
      == if (tp + fn =? 0)%Z then 0 else inject_Z tp / inject_Z (tp + fn))%Q
  /\ (Evaluate.f1_score r
      == if (2 * tp + fp + fn =? 0)%Z then 0
         else inject_Z (2 * tp) / inject_Z (2 * tp + fp + fn))%Q.
Proof.
  intros H. apply evaluate_results_fields in H. cbv zeta in H |- *.
  destruct H as (-> & -> & _ & -> & _ & _ & -> & -> & ->).
  set (ps := matched_pairs _ _).
  unfold prf_divide. split; [|split].
  - destruct (_ =? 0)%Z; [reflexivity | apply fdiv_correct].
  - destruct (_ =? 0)%Z; [reflexivity | apply fdiv_correct].
  - replace (tally true true ps + tally true false ps
             + (tally true true ps + tally false true ps))%Z
      with (2 * tally true true ps + tally false true ps
            + tally true false ps)%Z by lia.
    destruct (_ =? 0)%Z; [reflexivity | apply fdiv_correct].
Qed.

Lemma rates_from_counts_witness :
  exists r,
    evaluate_results
      (dataset_of [example_with "e1" true; example_with "e2" false;
                   example_with "e3" true])
      (results_of [pred "e1" true; pred "e2" true; pred "e3" false]) = Ok r
    /\ (precision r == 1 # 2)%Q /\ (recall r == 1 # 2)%Q
    /\ (Evaluate.f1_score r == 1 # 2)%Q.
Proof.
  eexists. split; [vm_compute; reflexivity|].
  pose proof (rates_from_counts
                (dataset_of [example_with "e1" true; example_with "e2" false;
                             example_with "e3" true])
                (results_of [pred "e1" true; pred "e2" true; pred "e3" false])
                _ eq_refl) as (Hp & Hr & Hf).
  cbn in Hp, Hr, Hf. repeat split; reflexivity.
Defined.

(** *** When the evaluator raises *)

Lemma existsb_false_all (f : bool -> bool) (l : list bool) :
  existsb f l = false -> forall b, In b l -> f b = false.
Proof.
  intros H b Hin. destruct (f b) eqn:E; [|reflexivity].
  assert (T : existsb f l = true) by (apply existsb_exists; now exists b).
  congruence.
Qed.

(** The outcome of [score] on the labels of a sequence of pairs. *)
Lemma score_outcome (ps : list (bool * bool)) :
  (score (map fst ps) (map snd ps) = Raise ValueError <->
   ps <> [] /\ exists c, forall a p, In (a, p) ps -> a = c /\ p = c)
  /\ ((exists r, score (map fst ps) (map snd ps) = Ok r)
      \/ score (map fst ps) (map snd ps) = Raise ValueError).
Proof.
  assert (Hcases : ps = [] \/ ps <> [])
    by (destruct ps; [now left | now right]).
  destruct Hcases as [E | Hne].
  - rewrite E. cbn. split.
    + split; [discriminate | intros [H _]; now elim H].
    + left. eexists. reflexivity.
  - rewrite score_nonempty by exact Hne.
    rewrite ravel_confusion_matrix.
    destruct (existsb negb (map fst ps ++ map snd ps)) eqn:E1;
      destruct (existsb (fun b => b) (map fst ps ++ map snd ps)) eqn:E2.
    + split; [|left; eexists; reflexivity].
      split; [discriminate|]. intros (_ & c & Hall). exfalso.
      apply existsb_exists in E1. destruct E1 as (x & Hx & Ex).
      apply existsb_exists in E2. destruct E2 as (y & Hy & Ey).
      assert (Hc : forall b, In b (map fst ps ++ map snd ps) -> b = c).
      { intros b Hb. apply in_app_or in Hb.
        destruct Hb as [Hb|Hb]; apply in_map_iff in Hb;
          destruct Hb as ([a p] & <- & Hin); now destruct (Hall a p Hin). }
      rewrite (Hc x Hx) in Ex. rewrite (Hc y Hy) in Ey.
      destruct c; discriminate.
    + split; [|now right]. split; [|reflexivity].
      intros _. split; [exact Hne|]. exists false. intros a p Hin.
      pose proof (existsb_false_all _ _ E2) as Hall.
      split.
      * apply (Hall a). apply in_or_app. left.
        apply in_map_iff. now exists (a, p).
      * apply (Hall p). apply in_or_app. right.
        apply in_map_iff. now exists (a, p).
    + split; [|now right]. split; [|reflexivity].
      intros _. split; [exact Hne|]. exists true. intros a p Hin.
      pose proof (existsb_false_all _ _ E1) as Hall.
      split.
      * apply Bool.negb_false_iff. apply (Hall a). apply in_or_app. left.
        apply in_map_iff. now exists (a, p).
      * apply Bool.negb_false_iff. apply (Hall p). apply in_or_app. right.
        apply in_map_iff. now exists (a, p).
    + exfalso. destruct ps as [|[a p] ps']; [now elim Hne|].
      cbn in E1, E2. destruct a; discriminate.
Qed.

(** X3.  The evaluator raises exactly when there is at least one matched
    pair and all ground truths and predictions of the matched pairs are one
    and the same class; the exception is then [ValueError], and in every
    other case a report is returned. *)
Theorem raises_iff_single_class (dataset : Dataset.t) (results : Results.t) :
  let pairs :=
    matched_pairs (Dataset.examples dataset) (Results.predictions results) in
  (evaluate_results dataset results = Raise ValueError <->
   pairs <> [] /\ exists c, forall a p, In (a, p) pairs -> a = c /\ p = c)
  /\ ((exists r, evaluate_results dataset results = Ok r)
      \/ evaluate_results dataset results = Raise ValueError).
Proof.
  cbv zeta. rewrite evaluate_results_score. cbv zeta. apply score_outcome.
Qed.

(** The ground truths of the matched pairs are verdicts of the dataset. *)
Lemma matched_pairs_actual (examples : list Example)
    (predictions : list Prediction) (v : bool) :
  (forall e, In e examples -> verdict (ground_truth e) = v) ->
  forall a p, In (a, p) (matched_pairs examples predictions) -> a = v.
Proof.
  induction examples as [|e rest IH]; intros Hv a p; cbn [matched_pairs];
    [intros []|].
  assert (Hrest : forall e', In e' rest -> verdict (ground_truth e') = v)
    by (intros e' He'; apply Hv; now right).
  destruct (first_match (id e) predictions) as [q|].
  - intros [Heq | Hin].
    + injection Heq as <- _. apply Hv. now left.
    + now apply (IH Hrest a p).
  - now apply IH.
Qed.

(** A report over pairs whose ground truths are all false. *)
Lemma all_false_fields (ps : list (bool * bool)) (r : Report) :
  (forall a p, In (a, p) ps -> a = false) ->
  score (map fst ps) (map snd ps) = Ok r ->
  true_positives r = 0%Z /\ false_negatives r = 0%Z
  /\ (precision r == 0)%Q /\ (recall r == 0)%Q
  /\ (Evaluate.f1_score r == 0)%Q
  /\ total_examples r = (false_positives r + true_negatives r)%Z.
Proof.
  intros Hact H. apply score_ok_fields in H. cbv zeta in H.
  assert (Htp : tally true true ps = 0%Z).
  { unfold tally. rewrite (proj1 (count_occ_not_In _ ps (true, true))); [lia|].
    intros Hin. specialize (Hact _ _ Hin). discriminate. }
  assert (Hfn : tally true false ps = 0%Z).
  { unfold tally. rewrite (proj1 (count_occ_not_In _ ps (true, false))); [lia|].
    intros Hin. specialize (Hact _ _ Hin). discriminate. }
  destruct H as (-> & -> & -> & -> & -> & _ & -> & -> & ->).
  rewrite Htp, Hfn. change (2 * 0)%Z with 0%Z.
  split; [reflexivity|]. split; [reflexivity|].
  split; [apply prf_divide_0|]. split; [apply prf_divide_0|].
  split; [apply prf_divide_0 | lia].
Qed.

(** X4.  On a dataset whose ground truths are all false, as the
    synthesizer labels them, a returned report has TP = 0 and FN = 0, and
    its precision, recall and F1 are 0. *)
Theorem all_false_dataset_report (dataset : Dataset.t) (results : Results.t)
    (r : Report) :
  (forall e, In e (Dataset.examples dataset) ->
             verdict (ground_truth e) = false) ->
  evaluate_results dataset results = Ok r ->
  true_positives r = 0%Z /\ false_negatives r = 0%Z
  /\ (precision r == 0)%Q /\ (recall r == 0)%Q
  /\ (Evaluate.f1_score r == 0)%Q
  /\ total_examples r = (false_positives r + true_negatives r)%Z.
Proof.
  intros Hfalse. rewrite evaluate_results_score. cbv zeta.
  apply all_false_fields. now apply matched_pairs_actual.
Qed.

Lemma all_false_dataset_report_witness :
  exists r,
    evaluate_results
      (dataset_of [example_with "e1" false; example_with "e2" false])
      (results_of [pred "e1" true; pred "e2" false]) = Ok r
    /\ true_positives r = 0%Z /\ (recall r == 0)%Q.
Proof.
  eexists. split; [vm_compute; reflexivity|].
  assert (Hfalse : forall e,
             In e (Dataset.examples
                     (dataset_of [example_with "e1" false;
                                  example_with "e2" false])) ->
             verdict (ground_truth e) = false).
  { intros e He. cbn in He. destruct He as [<- | [<- | []]]; reflexivity. }
  pose proof (all_false_dataset_report
                (dataset_of [example_with "e1" false; example_with "e2" false])
                (results_of [pred "e1" true; pred "e2" false])
                _ Hfalse eq_refl) as (Htp & _ & _ & Hrec & _).
  split; [exact Htp | exact Hrec].
Defined.

(** *** Perfect accuracy *)

Lemma quotient_is_1 (n d : Z) :
  (0 < d)%Z -> ((inject_Z n / inject_Z d == 1)%Q <-> n = d).
Proof.
  intros Hd. destruct d as [|d|d]; try lia.
  unfold Qeq, Qdiv, Qmult, Qinv, inject_Z; cbn. split; intros H; nia.
Qed.

(** X5.  In a report over at least one matched pair, accuracy is 1 exactly
    when every matched prediction equals its ground truth. *)
Theorem accuracy_1_iff_all_agree (dataset : Dataset.t) (results : Results.t)
    (r : Report) :
  evaluate_results dataset results = Ok r ->
  (0 < total_examples r)%Z ->
  let pairs :=
    matched_pairs (Dataset.examples dataset) (Results.predictions results) in
  (accuracy r == 1)%Q <-> (forall a p, In (a, p) pairs -> a = p).
Proof.
  intros H Hpos. apply evaluate_results_fields in H. cbv zeta in H |- *.
  set (ps := matched_pairs _ _) in *.
  destruct H as (_ & _ & _ & _ & Htot & Hacc & _).
  rewrite Htot in Hpos. rewrite Hacc.
  destruct (Z.eqb_spec (tally true true ps + tally false true ps
                        + tally false false ps + tally true false ps) 0)
    as [E|_]; [lia|].
  rewrite fdiv_correct, (quotient_is_1 _ _ Hpos).
  pose proof (tally_nonneg false true ps) as Hfp.
  pose proof (tally_nonneg true false ps) as Hfn.
  split.
  - intros Heq a p Hin.
    destruct a, p; try reflexivity; exfalso.
    + assert (0 < tally true false ps)%Z; [|lia].
      unfold tally. apply (count_occ_In pair_eq_dec) in Hin. lia.
    + assert (0 < tally false true ps)%Z; [|lia].
      unfold tally. apply (count_occ_In pair_eq_dec) in Hin. lia.
  - intros Hall.
    assert (Z1 : tally false true ps = 0%Z).
    { unfold tally.
      rewrite (proj1 (count_occ_not_In pair_eq_dec ps (false, true))); [lia|].
      intros Hin. specialize (Hall _ _ Hin). discriminate. }
    assert (Z2 : tally true false ps = 0%Z).
    { unfold tally.
      rewrite (proj1 (count_occ_not_In pair_eq_dec ps (true, false))); [lia|].
      intros Hin. specialize (Hall _ _ Hin). discriminate. }
    lia.
Qed.

Lemma accuracy_1_iff_all_agree_witness :
  exists r,
    evaluate_results
      (dataset_of [example_with "e1" true; example_with "e2" false;
                   example_with "e3" true])
      (results_of [pred "e3" true; pred "e1" true; pred "e2" false]) = Ok r
    /\ (accuracy r == 1)%Q.
Proof.
  eexists. split; [vm_compute; reflexivity|].
  apply (accuracy_1_iff_all_agree
           (dataset_of [example_with "e1" true; example_with "e2" false;
                        example_with "e3" true])
           (results_of [pred "e3" true; pred "e1" true; pred "e2" false])
           _ eq_refl); [reflexivity|].
  intros a p Hin. cbn in Hin.
  destruct Hin as [E | [E | [E | []]]]; injection E as <- <-; reflexivity.
Defined.

(** *** Coverage *)

Lemma first_match_covered (predictions : list Prediction) (e : Example) :
  covered predictions e = true <->
  exists r, first_match (id e) predictions = Some r.
Proof.
  unfold covered.
  induction predictions as [|q rest IH]; cbn [existsb first_match].
  - split; [discriminate | intros [r H]; discriminate].
  - destruct (string_dec (example_id q) (id e)) as [E|N].
    + apply String.eqb_eq in E. rewrite E. cbn [orb].
      split; [intros _; now exists q | reflexivity].
    + apply String.eqb_neq in N. rewrite N. cbn [orb]. exact IH.
Qed.

Lemma matched_pairs_covered (examples : list Example)
    (predictions : list Prediction) :
  List.length (matched_pairs examples predictions)
  = List.length (filter (covered predictions) examples).
Proof.
  induction examples as [|e rest IH]; cbn [matched_pairs filter];
    [reflexivity|].
  destruct (first_match (id e) predictions) as [r|] eqn:E.
  - rewrite (proj2 (first_match_covered predictions e)) by now exists r.
    cbn [List.length]. now rewrite IH.
  - destruct (covered predictions e) eqn:C; [|exact IH].
    apply first_match_covered in C. destruct C as [r Hr]. congruence.
Qed.

(** X6.  [total_examples] of a returned report is the number of dataset
    examples whose identifier occurs among the predictions; when every
    example has a prediction it is the size of the dataset. *)
Theorem total_examples_counts_covered (dataset : Dataset.t)
    (results : Results.t) (r : Report) :
  evaluate_results dataset results = Ok r ->
  total_examples r
  = Z.of_nat (List.length (filter (covered (Results.predictions results))
                                  (Dataset.examples dataset)))
  /\ ((forall e, In e (Dataset.examples dataset) ->
                 covered (Results.predictions results) e = true) ->
      total_examples r = Z.of_nat (List.length (Dataset.examples dataset))).
Proof.
  rewrite evaluate_results_score. cbv zeta. intros H.
  apply score_ok_inv in H. destruct H as (_ & _ & _ & _ & Htot & _).
  rewrite Htot, matched_pairs_covered. split; [reflexivity|].
  intros Hall. f_equal. f_equal.
  apply forallb_filter_id. apply forallb_forall. exact Hall.
Qed.

Lemma total_examples_counts_covered_witness :
  exists r,
    evaluate_results
      (dataset_of [example_with "e1" true; example_with "e2" false;
                   example_with "e3" true])
      (results_of [pred "e3" false; pred "zz" true; pred "e1" true]) = Ok r
    /\ total_examples r = 2%Z.
Proof.
  eexists. split; [vm_compute; reflexivity|].
  exact (proj1 (total_examples_counts_covered
                  (dataset_of [example_with "e1" true; example_with "e2" false;
                               example_with "e3" true])
                  (results_of [pred "e3" false; pred "zz" true; pred "e1" true])
                  _ eq_refl)).
Defined.

(** *** The order of the dataset *)

Lemma matched_pairs_permutation (examples examples' : list Example)
    (predictions : list Prediction) :
  Permutation examples examples' ->
  Permutation (matched_pairs examples predictions)
              (matched_pairs examples' predictions).
Proof.
  induction 1 as [|e l l' _ IH|e e' l|l l' l'' _ IH1 _ IH2];
    cbn [matched_pairs].
  - constructor.
  - destruct (first_match (id e) predictions); [now constructor | exact IH].
  - destruct (first_match (id e) predictions);
      destruct (first_match (id e') predictions);
      try apply Permutation_refl; apply perm_swap.
  - eapply Permutation_trans; eassumption.
Qed.

Lemma existsb_permutation {A : Type} (f : A -> bool) (l l' : list A) :
  Permutation l l' -> existsb f l = existsb f l'.
Proof.
  induction 1 as [|x l l' _ IH|x y l|l l' l'' _ IH1 _ IH2]; cbn [existsb].
  - reflexivity.
  - now rewrite IH.
  - now rewrite !Bool.orb_assoc, (Bool.orb_comm (f y)).
  - congruence.
Qed.

Lemma tally_permutation (t p : bool) (ps ps' : list (bool * bool)) :
  Permutation ps ps' -> tally t p ps = tally t p ps'.
Proof.
  intros H. unfold tally. f_equal.
  now apply (proj1 (Permutation_count_occ pair_eq_dec ps ps')).
Qed.

Lemma score_permutation (ps ps' : list (bool * bool)) :
  Permutation ps ps' ->
  score (map fst ps) (map snd ps) = score (map fst ps') (map snd ps').
Proof.
  intros H.
  assert (Hlabels : Permutation (map fst ps ++ map snd ps)
                                (map fst ps' ++ map snd ps'))
    by (apply Permutation_app; now apply Permutation_map).
  unfold score, accuracy_score, precision_score, recall_score,
    Sklearn.f1_score, tp_sum, pred_sum, true_sum.
  rewrite !ravel_confusion_matrix, !combine_fst_snd, !agree_tally,
    !cell_tally, !length_map.
  rewrite (Permutation_length H).
  rewrite (existsb_permutation negb _ _ Hlabels).
  rewrite (existsb_permutation (fun b => b) _ _ Hlabels).
  now rewrite !(tally_permutation _ _ ps ps' H).
Qed.

(** X7.  The outcome does not depend on the order of the dataset's
    examples. *)
Theorem dataset_order_irrelevant (dataset dataset' : Dataset.t)
    (results : Results.t) :
  Permutation (Dataset.examples dataset) (Dataset.examples dataset') ->
  evaluate_results dataset' results = evaluate_results dataset results.
Proof.
  intros H. rewrite !evaluate_results_score. cbv zeta.
  symmetry. apply score_permutation. now apply matched_pairs_permutation.
Qed.

Lemma dataset_order_irrelevant_witness :
  evaluate_results
    (dataset_of [example_with "e2" false; example_with "e3" true;
                 example_with "e1" true])
    (results_of [pred "e1" true; pred "e2" true])
  = evaluate_results
      (dataset_of [example_with "e1" true; example_with "e2" false;
                   example_with "e3" true])
      (results_of [pred "e1" true; pred "e2" true]).
Proof.
  apply dataset_order_irrelevant.
  apply (Permutation_middle [example_with "e2" false; example_with "e3" true]
                            [] (example_with "e1" true)).
Defined.

(** *** What the evaluator reads *)

Lemma matched_pairs_keys (examples examples' : list Example)
    (predictions : list Prediction) :
  map (fun e => (id e, verdict (ground_truth e))) examples
  = map (fun e => (id e, verdict (ground_truth e))) examples' ->
  matched_pairs examples predictions = matched_pairs examples' predictions.
Proof.
  revert examples'. induction examples as [|e rest IH];
    intros [|e' rest'] H; try discriminate; [reflexivity|].
  cbn [map] in H. injection H as Hid Hv Hrest.
  cbn [matched_pairs]. now rewrite Hid, Hv, (IH rest' Hrest).
Qed.

(** X16.  Of a dataset the evaluator reads only the identifier and the
    verdict of each example: two datasets that agree on these, example by
    example, give the same outcome, whatever their headers and the other
    fields of their examples. *)
Theorem evaluation_reads_id_and_verdict (dataset dataset' : Dataset.t)
    (results : Results.t) :
  map (fun e => (id e, verdict (ground_truth e))) (Dataset.examples dataset)
  = map (fun e => (id e, verdict (ground_truth e)))
        (Dataset.examples dataset') ->
  evaluate_results dataset results = evaluate_results dataset' results.
Proof.
  intros H. rewrite !evaluate_results_score. cbv zeta.
  now rewrite (matched_pairs_keys _ _ _ H).
Qed.

Lemma evaluation_reads_id_and_verdict_witness :
  evaluate_results
    (dataset_of [example_with "e1" true; example_with "e2" false])
    (results_of [pred "e1" true; pred "e2" true])
  = evaluate_results
      {| Dataset.version := "2.0";
         Dataset.created_at := EmptyString;
         Dataset.total_examples := 7;
         Dataset.examples :=
           [ {| id := "e1"; screenshot_path := "a.png";
                assertion := JStr "The menu is visible";
                ground_truth :=
                  {| verdict := true; expected_issues := JNull |};
                metadata :=
                  {| category := "security"; difficulty := JStr "hard";
                     created_at := "yesterday" |} |};
             example_with "e2" false ] |}
      (results_of [pred "e1" true; pred "e2" true]).
Proof.
  apply evaluation_reads_id_and_verdict. reflexivity.
Defined.

End EvaluateMore.

(* ================================================================== *)
(** ** Further facts about the synthesizer *)

Module SynthesizeMore.

Import Synthesize SynthSpec MoreSpec SynthesizeFacts.

(** *** Loops that read the clock once per position *)

Lemma for_each_clocked {X : Type}
    (body : nat -> list X * clock -> result (list X * clock))
    (P : nat -> clock -> X -> Prop) :
  (forall i xs t, exists x, body i (xs, t) = Ok (xs ++ [x], S t) /\ P i t x) ->
  forall n a xs t,
  exists new,
    for_each body (seq a n) (xs, t) = Ok (xs ++ new, t + n)
    /\ List.length new = n
    /\ forall k x, nth_error new k = Some x -> P (a + k) (t + k) x.
Proof.
  intros Hbody. induction n as [|n IH]; intros a xs t; cbn [seq for_each].
  - exists []. rewrite app_nil_r, Nat.add_0_r.
    split; [reflexivity|]. split; [reflexivity|].
    intros k x Hk. destruct k; discriminate.
  - destruct (Hbody a xs t) as (x & Hstep & HP).
    rewrite Hstep. cbn [bind].
    destruct (IH (S a) (xs ++ [x]) (S t)) as (new & Hrun & Hlen & Hnth).
    exists (x :: new).
    split.
    { replace (t + S n) with (S t + n) by lia.
      rewrite <- app_assoc in Hrun. exact Hrun. }
    split; [cbn [List.length]; now rewrite Hlen|].
    intros k y Hk. destruct k as [|k]; cbn [nth_error] in Hk.
    + injection Hk as <-. now rewrite !Nat.add_0_r.
    + specialize (Hnth k y Hk).
      now replace (a + S k) with (S a + k) by lia;
        replace (t + S k) with (S t + k) by lia.
Qed.

Section Run.

Variable now : nat -> string.
Variable external : nat -> string -> option json.

Lemma mock_body_clocked (i : nat) (examples : list Example) (t : clock) :
  exists e,
    mock_body now i (examples, t) = Ok (examples ++ [e], S t)
    /\ (mock_at i e /\ created_at (metadata e) = now t).
Proof.
  unfold mock_body, mock_at, at_position, from_table, category_at.
  change (List.length categories) with 5.
  pose proof (Nat.mod_upper_bound i 5 ltac:(lia)) as Hlt.
  destruct (i mod 5) as [|[|[|[|[|k]]]]]; [| | | | |lia];
    (eexists; split; [reflexivity|]; split; [|reflexivity];
     split; [repeat split|split; [|reflexivity]];
     eexists; split; [reflexivity|]; repeat split).
Qed.

Lemma generate_mock_example_value (index : nat) (category : string)
    (t : clock) :
  generate_mock_example now index category t
  = Ok (Filled (first_table_example now t), S t).
Proof. reflexivity. Qed.

(** The entry that the external strategy appends at position [i] when the
    clock has been read [t] times. *)
Lemma synth_body_clocked (i : nat) (entries : list entry) (t : clock) :
  exists x,
    synth_body now external i (entries, t) = Ok (entries ++ [x], S t)
    /\ x = Filled
             match try_external now external i (category_at i) t with
             | Some (e, _) => e
             | None => first_table_example now t
             end.
Proof.
  unfold synth_body. rewrite getitem_category. cbn [bind].
  destruct (try_external now external i (category_at i) t)
    as [[e t']|] eqn:E.
  - exists (Filled e). split; [|reflexivity].
    unfold try_external in E.
    destruct (external i (category_at i)) as [data|]; [|discriminate].
    destruct (subscript data "assertion"); [|discriminate].
    destruct (subscript data "expected_issues"); [|discriminate].
    destruct (subscript data "difficulty"); [|discriminate].
    injection E as _ <-. reflexivity.
  - rewrite generate_mock_example_value. cbn [bind].
    eexists. split; reflexivity.
Qed.

(** The entries of a run of the external strategy, position by position. *)
Lemma external_entries (c : ascii) (key : string) (count : nat) (t : clock) :
  exists entries,
    generate_synthetic_examples now external (Some (String c key)) count t
    = Ok (entries, t + count)
    /\ List.length entries = count
    /\ forall i, i < count ->
         nth_error entries i
         = Some (Filled
                   match try_external now external i (category_at i) (t + i)
                   with
                   | Some (e, _) => e
                   | None => first_table_example now (t + i)
                   end).
Proof.
  cbn [generate_synthetic_examples]. unfold range.
  destruct (for_each_clocked (synth_body now external)
              (fun i t x =>
                 x = Filled
                       match try_external now external i (category_at i) t
                       with
                       | Some (e, _) => e
                       | None => first_table_example now t
                       end)
              synth_body_clocked count 0 [] t)
    as (new & Hrun & Hlen & Hnth).
  exists new. split; [exact Hrun|]. split; [exact Hlen|].
  intros i Hi.
  destruct (nth_error new i) as [x|] eqn:E.
  - now rewrite (Hnth i x E).
  - apply nth_error_None in E. lia.
Qed.

(** The examples of a run of the table strategy, position by position. *)
Lemma table_examples (count : nat) (t : clock) :
  exists examples,
    generate_mock_examples now count t = Ok (examples, t + count)
    /\ List.length examples = count
    /\ forall i e, nth_error examples i = Some e ->
         mock_at i e /\ created_at (metadata e) = now (t + i).
Proof.
  unfold generate_mock_examples, range.
  destruct (for_each_clocked (mock_body now)
              (fun i t e => mock_at i e /\ created_at (metadata e) = now t)
              mock_body_clocked count 0 [] t)
    as (new & Hrun & Hlen & Hnth).
  exists new. split; [exact Hrun|]. split; [exact Hlen|]. exact Hnth.
Qed.

Lemma map_Filled_injective (l l' : list Example) :
  map Filled l = map Filled l' -> l = l'.
Proof.
  revert l'. induction l as [|e l IH]; intros [|e' l'] H;
    try discriminate; [reflexivity|].
  cbn [map] in H. injection H as -> H. now rewrite (IH l' H).
Qed.

(** Every run returns examples, all of them labelled false, after reading
    the clock [count] times. *)
Lemma run_examples (api_key : option string) (count : nat) (t : clock) :
  exists examples,
    generate_synthetic_examples now external api_key count t
    = Ok (map Filled examples, t + count)
    /\ List.length examples = count
    /\ Forall (fun e => verdict (ground_truth e) = false) examples.
Proof.
  assert (Htable : api_key = None \/ api_key = Some EmptyString ->
    exists examples,
      generate_synthetic_examples now external api_key count t
      = Ok (map Filled examples, t + count)
      /\ List.length examples = count
      /\ Forall (fun e => verdict (ground_truth e) = false) examples).
  { intros Hkey.
    destruct (table_examples count t) as (examples & Hrun & Hlen & Hnth).
    exists examples. split; [|split; [exact Hlen|]].
    - unfold generate_synthetic_examples.
      destruct Hkey as [-> | ->]; rewrite Hrun; reflexivity.
    - apply Forall_forall. intros e He.
      apply In_nth_error in He. destruct He as [i Hi].
      apply (Hnth i e Hi). }
  destruct api_key as [[|c key]|];
    [apply Htable; now right | | apply Htable; now left].
  destruct (external_entries c key count t) as (entries & Hrun & Hlen & _).
  destruct (external_run now external c key count t)
    as (entries' & t' & Hrun' & Hall).
  rewrite Hrun in Hrun'. injection Hrun' as <- <-.
  assert (Hfilled :
    Forall2 (fun (i : nat) x =>
               exists e, x = Filled e /\ verdict (ground_truth e) = false)
            (range count) entries).
  { apply (Forall2_weaken (synth_at now external)); [|exact Hall].
    intros i x _ (e & -> & Hv & _). now exists e. }
  apply (Forall2_filled (fun _ e => verdict (ground_truth e) = false))
    in Hfilled.
  destruct Hfilled as (examples & -> & Hv).
  exists examples. split; [exact Hrun|]. split.
  - now rewrite length_map in Hlen.
  - apply (Forall2_right _ _ _ _ (fun _ _ H => H) Hv).
Qed.

End Run.

(** *** The table strategy *)

(** X8.  Without a key (unset or empty) the synthesizer returns exactly
    [count] examples after reading the clock [count] times.  The example at
    position [i] has the identifier, category and screenshot path of
    position [i], the content of the table entry of that category, verdict
    false and the [i]-th clock reading as its timestamp; the identifiers are
    pairwise distinct and the categories balanced. *)
Theorem table_strategy_examples (now : nat -> string)
    (external : nat -> string -> option json) (api_key : option string)
    (count : nat) (t : clock) :
  api_key = None \/ api_key = Some EmptyString ->
  exists examples,
    generate_synthetic_examples now external api_key count t
    = Ok (map Filled examples, t + count)
    /\ List.length examples = count
    /\ NoDup (map id examples)
    /\ balanced examples
    /\ forall i e, nth_error examples i = Some e ->
         at_position i e /\ from_table e
         /\ verdict (ground_truth e) = false
         /\ created_at (metadata e) = now (t + i).
Proof.
  intros Hkey.
  destruct (table_examples now count t) as (examples & Hrun & Hlen & Hnth).
  destruct (table_strategy_contract now external api_key count t Hkey)
    as (examples' & t' & Hrun' & _ & Hnd & Hbal).
  assert (E : examples' = examples).
  { unfold generate_synthetic_examples in Hrun'.
    destruct Hkey as [-> | ->]; rewrite Hrun in Hrun'; cbn [bind] in Hrun';
      injection Hrun' as H _; symmetry; now apply map_Filled_injective. }
  subst examples'. exists examples. split; [|split; [exact Hlen|]].
  - unfold generate_synthetic_examples.
    destruct Hkey as [-> | ->]; rewrite Hrun; reflexivity.
  - split; [exact Hnd|]. split; [exact Hbal|].
    intros i e Hi. destruct (Hnth i e Hi) as ((Hpos & Htab & Hv) & Hts).
    split; [exact Hpos|]. split; [exact Htab|]. split; assumption.
Qed.

Lemma table_strategy_examples_witness :
  exists examples,
    generate_synthetic_examples sample_clock Samples.unreachable None 7 3
    = Ok (map Filled examples, 10)
    /\ List.length examples = 7
    /\ NoDup (map id examples)
    /\ balanced examples.
Proof.
  destruct (table_strategy_examples sample_clock Samples.unreachable None 7 3
                                    (or_introl eq_refl))
    as (examples & Hrun & Hlen & Hnd & Hbal & _).
  exists examples. repeat split; assumption.
Defined.

(** *** The external strategy *)

Lemma try_external_answered (now : nat -> string)
    (external : nat -> string -> option json) (i : nat) (c : string)
    (t : clock) (data a issues d : json) :
  external i c = Some data ->
  subscript data "assertion" = Some a ->
  subscript data "expected_issues" = Some issues ->
  subscript data "difficulty" = Some d ->
  try_external now external i c t
  = Some ({| id := example_id_of i;
             screenshot_path := screenshot_of c i;
             assertion := a;
             ground_truth := {| verdict := false; expected_issues := issues |};
             metadata := {| category := c; difficulty := d;
                            created_at := now t |} |},
          S t).
Proof.
  intros He Ha Hi Hd. unfold try_external. now rewrite He, Ha, Hi, Hd.
Qed.

Lemma try_external_failed (now : nat -> string)
    (external : nat -> string -> option json) (i : nat) (c : string)
    (t : clock) :
  external i c = None
  \/ (exists data,
         external i c = Some data
         /\ (subscript data "assertion" = None
             \/ subscript data "expected_issues" = None
             \/ subscript data "difficulty" = None)) ->
  try_external now external i c t = None.
Proof.
  unfold try_external. intros [-> | (data & -> & H)]; [reflexivity|].
  destruct (subscript data "assertion");
    destruct (subscript data "expected_issues");
    destruct (subscript data "difficulty");
    try reflexivity; destruct H as [H | [H | H]]; discriminate.
Qed.

(** X9.  With a key set, a position whose request is answered by an object
    holding the three keys gets the example made of that answer: identifier,
    category and screenshot path of the position, the three answered values,
    verdict false, and the clock reading of its turn.  This holds whatever
    happens at the other positions. *)
Theorem answered_position_keeps_answer (now : nat -> string)
    (external : nat -> string -> option json) (c : ascii) (key : string)
    (count : nat) (t : clock) (i : nat) (data a issues d : json) :
  i < count ->
  external i (category_at i) = Some data ->
  subscript data "assertion" = Some a ->
  subscript data "expected_issues" = Some issues ->
  subscript data "difficulty" = Some d ->
  exists entries,
    generate_synthetic_examples now external (Some (String c key)) count t
    = Ok (entries, t + count)
    /\ nth_error entries i
       = Some (Filled
                 {| id := example_id_of i;
                    screenshot_path := screenshot_of (category_at i) i;
                    assertion := a;
                    ground_truth :=
                      {| verdict := false; expected_issues := issues |};
                    metadata :=
                      {| category := category_at i; difficulty := d;
                         created_at := now (t + i) |} |}).
Proof.
  intros Hi He Ha His Hd.
  destruct (external_entries now external c key count t)
    as (entries & Hrun & _ & Hnth).
  exists entries. split; [exact Hrun|].
  rewrite (Hnth i Hi).
  now rewrite (try_external_answered now external i (category_at i) (t + i)
                 data a issues d He Ha His Hd).
Qed.

Lemma answered_position_keeps_answer_witness :
  exists entries,
    generate_synthetic_examples sample_clock Samples.fails_second
                                (Some "key") 2 0
    = Ok (entries, 2)
    /\ nth_error entries 0
       = Some (Filled
                 {| id := "example_001";
                    screenshot_path :=
                      "benchmarks/screenshots/accessibility_1.png";
                    assertion := JStr "Every image has alternative text";
                    ground_truth :=
                      {| verdict := false;
                         expected_issues :=
                           JArr [JStr "The logo has no alt attribute"] |};
                    metadata :=
                      {| category := "accessibility";
                         difficulty := JStr "easy";
                         created_at := sample_clock 0 |} |}).
Proof.
  apply (answered_position_keeps_answer sample_clock Samples.fails_second
           "k" "ey" 2 0 0 Samples.answer
           (JStr "Every image has alternative text")
           (JArr [JStr "The logo has no alt attribute"]) (JStr "easy"));
    [lia | reflexivity..].
Defined.

(** X10.  With a key set, a position whose request fails, or whose answer
    is not an object or lacks one of the three keys, gets the table example
    of position 0 (identifier [example_001], category accessibility) with the
    clock reading of its turn, and the run goes on to return. *)
Theorem failed_position_gets_first_table_example (now : nat -> string)
    (external : nat -> string -> option json) (c : ascii) (key : string)
    (count : nat) (t : clock) (i : nat) :
  i < count ->
  external i (category_at i) = None
  \/ (exists data,
         external i (category_at i) = Some data
         /\ (subscript data "assertion" = None
             \/ subscript data "expected_issues" = None
             \/ subscript data "difficulty" = None)) ->
  exists entries,
    generate_synthetic_examples now external (Some (String c key)) count t
    = Ok (entries, t + count)
    /\ List.length entries = count
    /\ nth_error entries i = Some (Filled (first_table_example now (t + i))).
Proof.
  intros Hi Hfail.
  destruct (external_entries now external c key count t)
    as (entries & Hrun & Hlen & Hnth).
  exists entries. split; [exact Hrun|]. split; [exact Hlen|].
  rewrite (Hnth i Hi).
  now rewrite (try_external_failed now external i (category_at i) (t + i)
                 Hfail).
Qed.

Lemma failed_position_gets_first_table_example_witness :
  exists entries,
    generate_synthetic_examples sample_clock Samples.fails_second
                                (Some "key") 2 0
    = Ok (entries, 2)
    /\ List.length entries = 2
    /\ nth_error entries 1 = Some (Filled (first_table_example sample_clock 1)).
Proof.
  apply (failed_position_gets_first_table_example sample_clock
           Samples.fails_second "k" "ey" 2 0 1); [lia|].
  left. reflexivity.
Defined.

(** X11.  With a key set, when every request is answered by an object
    holding the three keys, the synthesizer returns exactly [count]
    examples with pairwise distinct identifiers and balanced categories. *)
Theorem external_run_without_failure (now : nat -> string)
    (external : nat -> string -> option json) (c : ascii) (key : string)
    (count : nat) (t : clock) :
  (forall i, i < count ->
     exists data a issues d,
       external i (category_at i) = Some data
       /\ subscript data "assertion" = Some a
       /\ subscript data "expected_issues" = Some issues
       /\ subscript data "difficulty" = Some d) ->
  exists examples,
    generate_synthetic_examples now external (Some (String c key)) count t
    = Ok (map Filled examples, t + count)
    /\ List.length examples = count
    /\ NoDup (map id examples)
    /\ balanced examples.
Proof.
  intros Hgood.
  assert (Htry : forall i t0, i < count ->
            try_external now external i (category_at i) t0 <> None).
  { intros i t0 Hi.
    destruct (Hgood i Hi) as (data & a & issues & d & He & Ha & His & Hd).
    now rewrite (try_external_answered now external i (category_at i) t0
                   data a issues d He Ha His Hd). }
  destruct (external_strategy_contract now external c key count t Htry)
    as (examples & t' & Hrun & Hlen & Hnd & Hbal).
  destruct (external_entries now external c key count t)
    as (entries & Hrun' & _).
  rewrite Hrun in Hrun'. injection Hrun' as _ ->.
  exists examples. now repeat split.
Qed.

Lemma external_run_without_failure_witness :
  exists examples,
    generate_synthetic_examples sample_clock (fun _ _ => Some Samples.answer)
                                (Some "key") 6 0
    = Ok (map Filled examples, 6)
    /\ List.length examples = 6
    /\ NoDup (map id examples)
    /\ balanced examples.
Proof.
  apply (external_run_without_failure sample_clock
           (fun _ _ => Some Samples.answer) "k" "ey" 6 0).
  intros i _. do 4 eexists. repeat split; reflexivity.
Defined.

(** X12.  [generate_mock_example] returns the same example for every
    [index] and [category]: the table example of position 0, never the
    empty dict, after one reading of the clock. *)
Theorem fallback_ignores_arguments (now : nat -> string)
    (index index' : nat) (category category' : string) (t : clock) :
  generate_mock_example now index category t
  = generate_mock_example now index' category' t
  /\ generate_mock_example now index category t
     = Ok (Filled (first_table_example now t), S t).
Proof. split; reflexivity. Qed.

(** *** Identifiers *)

Lemma substring_all (s : string) : String.substring 0 (String.length s) s = s.
Proof.
  induction s as [|ch s IH]; cbn [String.length String.substring];
    [reflexivity | now rewrite IH].
Qed.

Lemma substring_0_0 (s : string) : String.substring 0 0 s = EmptyString.
Proof. destruct s; reflexivity. Qed.

Lemma short_ids_width :
  forallb (fun i => Nat.eqb (String.length (example_id_of i)) 11) (seq 0 999)
  = true.
Proof. vm_compute. reflexivity. Qed.

(** X13.  The position can be read back from the identifier, so distinct
    positions get distinct identifiers; and up to position 998 (number 999)
    the identifier is [example_] followed by exactly three digits. *)
Theorem example_id_round_trip (i : nat) :
  position_of_id (example_id_of i) = Some i
  /\ (forall j, example_id_of i = example_id_of j -> i = j)
  /\ (i < 999 -> String.length (example_id_of i) = 11).
Proof.
  assert (Hback : forall k, position_of_id (example_id_of k) = Some k).
  { intros k. unfold position_of_id, example_id_of.
    cbn [String.append String.substring String.length Nat.sub].
    rewrite substring_0_0, Nat.sub_0_r.
    rewrite String.eqb_refl, substring_all, read_nat_format_03d.
    now rewrite Nat.add_1_r. }
  split; [apply Hback|]. split.
  - intros j H.
    assert (E : Some i = Some j) by (rewrite <- !Hback; now rewrite H).
    now injection E.
  - intros Hi.
    pose proof short_ids_width as H. rewrite forallb_forall in H.
    apply Nat.eqb_eq. apply H. apply in_seq. lia.
Qed.

End SynthesizeMore.

(* ================================================================== *)
(** ** From the synthesizer to the evaluator *)

Module PipelineFacts.

Import Sklearn Spec Evaluate Synthesize SynthSpec MoreSpec.
Import SklearnFacts EvaluateFacts EvaluateMore SynthesizeFacts SynthesizeMore.

(** X14.  For every integer [count], [main] writes to the given path a
    document of version 1.0 whose [total_examples] is the number of its
    examples, [count] of them and none for a negative [count]; every entry
    is an example with verdict false, and the document's timestamp is the
    clock reading that follows those of the examples. *)
Theorem main_writes_count_examples (now : nat -> string)
    (external : nat -> string -> option json) (api_key : option string)
    (output : string) (count : Z) (t : clock) :
  exists doc examples,
    Save.main now external api_key output count t
    = Ok ((output, doc), S (t + Z.to_nat count))
    /\ Save.version doc = "1.0"
    /\ Save.examples doc = map Filled examples
    /\ Save.total_examples doc = Z.of_nat (List.length examples)
    /\ Save.total_examples doc = Z.max 0 count
    /\ Save.created_at doc = now (t + Z.to_nat count)
    /\ Forall (fun e => verdict (ground_truth e) = false) examples.
Proof.
  destruct (run_examples now external api_key (Z.to_nat count) t)
    as (examples & Hrun & Hlen & Hv).
  unfold Save.main. rewrite Hrun. cbn [bind Save.save_dataset].
  eexists. exists examples. split; [reflexivity|].
  cbn [Save.version Save.examples Save.total_examples Save.created_at].
  rewrite length_map, Hlen.
  repeat split; try reflexivity; [lia | exact Hv].
Qed.

Lemma matched_pairs_predicted (examples : list Example)
    (predictions : list Prediction) (v : bool) :
  (forall q, In q predictions -> predicted_verdict q = v) ->
  forall a p, In (a, p) (matched_pairs examples predictions) -> p = v.
Proof.
  intros Hv. induction examples as [|e rest IH]; intros a p;
    cbn [matched_pairs]; [intros []|].
  destruct (first_match (id e) predictions) as [q|] eqn:E; [|apply IH].
  intros [Heq | Hin]; [|now apply (IH a p)].
  injection Heq as _ <-. apply Hv.
  now apply first_match_some in E.
Qed.

Lemma matched_pairs_nonempty (examples : list Example)
    (predictions : list Prediction) (e : Example) :
  In e examples -> covered predictions e = true ->
  matched_pairs examples predictions <> [].
Proof.
  intros Hin Hc Hnil.
  pose proof (matched_pairs_covered examples predictions) as Hlen.
  rewrite Hnil in Hlen. cbn [List.length] in Hlen.
  assert (Hf : In e (filter (covered predictions) examples))
    by (apply filter_In; now split).
  destruct (filter (covered predictions) examples); [exact Hf | discriminate].
Qed.

(** X15.  A dataset made of the examples that [main] writes can only be
    scored with TP = 0, FN = 0 and precision, recall and F1 equal to 0; and
    when all predictions are false and at least one example has a
    prediction, the evaluator raises [ValueError]. *)
Theorem synthesized_dataset_evaluation (now : nat -> string)
    (external : nat -> string -> option json) (api_key : option string)
    (output : string) (count : Z) (t : clock) :
  exists doc t' examples,
    Save.main now external api_key output count t = Ok ((output, doc), t')
    /\ Save.examples doc = map Filled examples
    /\ forall dataset results,
         Dataset.examples dataset = examples ->
         (forall r,
             evaluate_results dataset results = Ok r ->
             true_positives r = 0%Z /\ false_negatives r = 0%Z
             /\ (precision r == 0)%Q /\ (recall r == 0)%Q
             /\ (Evaluate.f1_score r == 0)%Q)
         /\ ((forall q, In q (Results.predictions results) ->
                        predicted_verdict q = false) ->
             (exists e, In e examples
                        /\ covered (Results.predictions results) e = true) ->
             evaluate_results dataset results = Raise ValueError).
Proof.
  destruct (run_examples now external api_key (Z.to_nat count) t)
    as (examples & Hrun & Hlen & Hv).
  unfold Save.main. rewrite Hrun. cbn [bind Save.save_dataset].
  eexists. eexists. exists examples. split; [reflexivity|].
  split; [reflexivity|].
  intros dataset results Hex.
  rewrite evaluate_results_score. cbv zeta. rewrite Hex.
  assert (Hact : forall a p,
             In (a, p) (matched_pairs examples (Results.predictions results)) ->
             a = false).
  { apply matched_pairs_actual. apply Forall_forall. exact Hv. }
  split.
  - intros r Hr.
    destruct (all_false_fields _ r Hact Hr) as (H1 & H2 & H3 & H4 & H5 & _).
    now repeat split.
  - intros Hpred (e & Hin & Hcov).
    apply (proj1 (score_outcome _)). split.
    + now apply matched_pairs_nonempty with e.
    + exists false. intros a p Hp. split; [now apply (Hact a p)|].
      now apply (matched_pairs_predicted examples
                   (Results.predictions results) false Hpred a p).
Qed.

End PipelineFacts.
